(** * LangChain RAG bot (Lab_5/main.py): the conversation loop and its
    citation formatter, embedded in Rocq.

    The script is dynamically typed: the backend payload, the items of its
    context and the entries of the session logs are inspected at run time
    ([isinstance], [.get], attribute access, iteration).  The embedding keeps
    that: values live in one universe [pyval], and every operation that
    Python can refuse returns a [result]. *)

From Stdlib Require Import ZArith NArith Ascii String List HexadecimalString.
From stdpp Require Import base option list strings pretty gmap sorting.

Set Warnings "-register-all".

(** ** Python values

    The values a backend payload or a session log can hold.  A [string] is a
    sequence of code points below 256, one per [ascii].  Integers are
    unbounded.  A dictionary has [str] keys and keeps its insertion order
    (keys are pairwise distinct in a dictionary Python can build).  [VObj] is
    an instance of a plain class: [id] is its identity (the address that
    [id()] returns), [cls] the qualified name of its class, [attrs] its data
    attributes; it has the methods of [object] and no others.  Floats, sets
    and objects with methods of their own are outside the universe, and so are
    the limits of the interpreter (recursion depth, digits of an [int]). *)

Inductive pyval : Type :=
| VNone
| VBool (b : bool)
| VInt (z : Z)
| VStr (s : string)
| VList (items : list pyval)
| VTuple (items : list pyval)
| VDict (entries : list (string * pyval))
| VObj (id : N) (cls : string) (attrs : list (string * pyval)).

Inductive exn : Type :=
| AttributeError
| TypeError
| KeyError
| OtherError (name : string).

Inductive result (A : Type) : Type :=
| Ok (a : A)
| Raise (e : exn).
Arguments Ok {A} a.
Arguments Raise {A} e.

#[global] Instance result_ret : MRet result := @Ok.
#[global] Instance result_bind : MBind result := λ A B f m,
  match m with
  | Ok a => f a
  | Raise e => Raise e
  end.

(** ** Text *)

Definition LF : string := String "010"%char "".

Fixpoint assoc {A : Type} (key : string) (entries : list (string * A)) : option A :=
  match entries with
  | [] => None
  | (k, v) :: rest => if String.eqb k key then Some v else assoc key rest
  end.

Definition hex_escape (c : ascii) : string :=
  let d := NilZero.string_of_uint (N.to_hex_uint (N_of_ascii c)) in
  "\x" +:+ (if (N_of_ascii c <? 16)%N then "0" +:+ d else d).

(** [str.isprintable] on one code point below 256: the controls, the
    no-break space (160) and the soft hyphen (173) are not printable. *)
Definition py_isprintable (c : ascii) : bool :=
  let n := N_of_ascii c in
  ((32 <=? n) && (n <? 127) || (161 <=? n) && negb (n =? 173))%N.

Definition repr_char (quote c : ascii) : string :=
  if Ascii.eqb c quote || Ascii.eqb c "092"%char then String "092"%char (String c "")
  else if Ascii.eqb c "009"%char then "\t"
  else if Ascii.eqb c "010"%char then "\n"
  else if Ascii.eqb c "013"%char then "\r"
  else if py_isprintable c then String c ""
  else hex_escape c.

Fixpoint string_has (c : ascii) (s : string) : bool :=
  match s with
  | EmptyString => false
  | String c' s' => Ascii.eqb c c' || string_has c s'
  end.

Fixpoint string_flat_map (f : ascii → string) (s : string) : string :=
  match s with
  | EmptyString => ""
  | String c s' => f c +:+ string_flat_map f s'
  end.

(** [repr] of a [str]: single quotes (code 39), unless the text has a single
    quote and no double quote (code 34); the quote in use and the backslash
    (code 92) are escaped. *)
Definition repr_str (s : string) : string :=
  let quote :=
    if string_has "039"%char s && negb (string_has "034"%char s)
    then "034"%char else "039"%char in
  String quote (string_flat_map (repr_char quote) s) +:+ String quote "".

(** [repr(v)]: what a container prints for each of its elements. *)
Fixpoint py_repr (v : pyval) : string :=
  match v with
  | VNone => "None"
  | VBool true => "True"
  | VBool false => "False"
  | VInt z => pretty z
  | VStr s => repr_str s
  | VList items => "[" +:+ String.concat ", " (map py_repr items) +:+ "]"
  | VTuple [item] => "(" +:+ py_repr item +:+ ",)"
  | VTuple items => "(" +:+ String.concat ", " (map py_repr items) +:+ ")"
  | VDict entries =>
      "{" +:+ String.concat ", "
        (map (λ kv : string * pyval, repr_str kv.1 +:+ ": " +:+ py_repr kv.2) entries)
      +:+ "}"
  | VObj id cls _ =>
      "<" +:+ cls +:+ " object at 0x" +:+ NilZero.string_of_uint (N.to_hex_uint id) +:+ ">"
  end.

(** [str(v)], which is also what an f-string field [{v}] prints. *)
Definition py_str (v : pyval) : string :=
  match v with
  | VStr s => s
  | _ => py_repr v
  end.

(** [isinstance(v, str)] *)
Definition isinstance_str (v : pyval) : bool :=
  match v with
  | VStr _ => true
  | _ => false
  end.

(** [str(type(v))] *)
Definition py_type (v : pyval) : string :=
  "<class '" +:+
  match v with
  | VNone => "NoneType"
  | VBool _ => "bool"
  | VInt _ => "int"
  | VStr _ => "str"
  | VList _ => "list"
  | VTuple _ => "tuple"
  | VDict _ => "dict"
  | VObj _ cls _ => cls
  end +:+ "'>".

(** Truth value of [v], as [if v:] tests it. *)
Definition py_truthy (v : pyval) : bool :=
  match v with
  | VNone => false
  | VBool b => b
  | VInt z => negb (z =? 0)%Z
  | VStr s => negb (String.eqb s "")
  | VList items | VTuple items => negb (bool_decide (length items = 0))
  | VDict entries => negb (bool_decide (length entries = 0))
  | VObj _ _ _ => true
  end.

(** ** Method calls, attributes, iteration *)

(** [obj.get(key, default)].  Only a dictionary has the method; a data
    attribute called [get] on a plain object is not callable. *)
Definition py_get (obj : pyval) (key : string) (fallback : pyval) : result pyval :=
  match obj with
  | VDict entries => Ok (default fallback (assoc key entries))
  | VObj _ _ attrs => if assoc "get" attrs is Some _ then Raise TypeError else Raise AttributeError
  | _ => Raise AttributeError
  end.

(** [doc.metadata].  No built-in type has an attribute of that name. *)
Definition py_metadata (doc : pyval) : result pyval :=
  match doc with
  | VObj _ _ attrs => if assoc "metadata" attrs is Some v then Ok v else Raise AttributeError
  | _ => Raise AttributeError
  end.

(** The items that [for doc in v] visits. *)
Definition py_iter (v : pyval) : result (list pyval) :=
  match v with
  | VList items | VTuple items => Ok items
  | VStr s => Ok (map (λ c, VStr (String c "")) (list_ascii_of_string s))
  | VDict entries => Ok (map (λ kv : string * pyval, VStr kv.1) entries)
  | _ => Raise TypeError
  end.

(** [v.append(x)], with the list it leaves behind. *)
Definition py_append (v x : pyval) : result pyval :=
  match v with
  | VList items => Ok (VList (items ++ [x]))
  | VObj _ _ attrs => if assoc "append" attrs is Some _ then Raise TypeError else Raise AttributeError
  | _ => Raise AttributeError
  end.

(** ** Sets and sorting *)

Fixpoint py_hashable (v : pyval) : bool :=
  match v with
  | VList _ | VDict _ => false
  | VTuple items => forallb py_hashable items
  | _ => true
  end.

Definition py_num (v : pyval) : option Z :=
  match v with
  | VBool b => Some (if b then 1 else 0)%Z
  | VInt z => Some z
  | _ => None
  end.

(** [a == b] *)
Fixpoint py_eq (a b : pyval) : bool :=
  match a, b with
  | VNone, VNone => true
  | VStr s, VStr t => String.eqb s t
  | VList l1, VList l2 | VTuple l1, VTuple l2 =>
      (fix all2 (l1 l2 : list pyval) : bool :=
         match l1, l2 with
         | [], [] => true
         | x :: l1', y :: l2' => py_eq x y && all2 l1' l2'
         | _, _ => false
         end) l1 l2
  | VDict d1, VDict d2 =>
      (fix sub (d : list (string * pyval)) : bool :=
         match d with
         | [] => true
         | (k, x) :: d' =>
             (if assoc k d2 is Some y then py_eq x y else false) && sub d'
         end) d1 && bool_decide (length d1 = length d2)
  | VObj i _ _, VObj j _ _ => (i =? j)%N
  | _, _ =>
      match py_num a, py_num b with
      | Some x, Some y => (x =? y)%Z
      | _, _ => false
      end
  end.

(** [a < b].  Numbers compare with numbers, text with text, sequences of one
    kind item by item; anything else is a [TypeError]. *)
Fixpoint py_lt (a b : pyval) : result bool :=
  match a, b with
  | VStr s, VStr t => Ok (String.ltb s t)
  | VList l1, VList l2 | VTuple l1, VTuple l2 =>
      (fix lex (l1 l2 : list pyval) : result bool :=
         match l1, l2 with
         | [], [] => Ok false
         | [], _ :: _ => Ok true
         | _ :: _, [] => Ok false
         | x :: l1', y :: l2' => if py_eq x y then lex l1' l2' else py_lt x y
         end) l1 l2
  | _, _ =>
      match py_num a, py_num b with
      | Some x, Some y => Ok (x <? y)%Z
      | _, _ => Raise TypeError
      end
  end.

(** A Python [set] is kept as the list of its elements, pairwise different
    under [==]; an element that is already there is not replaced.  Python
    enumerates a set in an order that depends on the hashes of its elements;
    the list keeps the order of insertion.  The only reader of the order is
    [sorted] in [create_sources_string], whose result on text identifiers
    depends on the elements alone ([create_sources_string_order]). *)
Definition py_set_add (s : list pyval) (x : pyval) : result (list pyval) :=
  if py_hashable x then Ok (if existsb (py_eq x) s then s else s ++ [x])
  else Raise TypeError.

(** [set(f(doc) for doc in docs)]: the generator yields one value at a time
    and the set hashes it before the next one is computed. *)
Fixpoint py_set_gen (f : pyval → result pyval) (docs s : list pyval) : result (list pyval) :=
  match docs with
  | [] => Ok s
  | doc :: rest => x ← f doc; s' ← py_set_add s x; py_set_gen f rest s'
  end.

(** [sorted(l)] calls [<] only.  It is stable, and a comparison that raises
    ends it. *)
Fixpoint py_insert (x : pyval) (l : list pyval) : result (list pyval) :=
  match l with
  | [] => Ok [x]
  | y :: l' =>
      b ← py_lt y x;
      if b : bool then r ← py_insert x l'; Ok (y :: r) else Ok (x :: y :: l')
  end.

Fixpoint py_sorted (l : list pyval) : result (list pyval) :=
  match l with
  | [] => Ok []
  | x :: l' => r ← py_sorted l'; py_insert x r
  end.

(** ** Helper functions of the script *)

(** Formats a set of source URLs into a numbered string. *)
Definition create_sources_string (source_urls : list pyval) : result string :=
  if source_urls is [] then Ok ""
  else
    sources_list ← py_sorted source_urls;
    Ok ("sources:" +:+ LF +:+
        String.concat LF
          (imap (λ i source, pretty (i + 1) +:+ ". " +:+ py_str source) sources_list)).

(** ** Session state

    [st.session_state] is a dictionary from keys to values that outlives one
    run of the script.  A step of the script reads and updates it and either
    returns or raises; what it wrote before raising stays written. *)

Definition script (A : Type) : Type :=
  gmap string pyval → gmap string pyval * result A.

#[global] Instance script_ret : MRet script := λ A a st, (st, Ok a).
#[global] Instance script_bind : MBind script := λ A B f m st,
  match m st with
  | (st', Ok a) => f a st'
  | (st', Raise e) => (st', Raise e)
  end.

Definition lift {A : Type} (r : result A) : script A := λ st, (st, r).

(** [key in st.session_state] *)
Definition ss_contains (key : string) : script bool :=
  λ st, (st, Ok (bool_decide (is_Some (st !! key)))).

(** [st.session_state[key]] *)
Definition ss_getitem (key : string) : script pyval :=
  λ st, (st, if st !! key is Some v then Ok v else Raise KeyError).

(** [st.session_state[key] = v] *)
Definition ss_setitem (key : string) (v : pyval) : script unit :=
  λ st, (<[key := v]> st, Ok tt).

(** [st.session_state.clear()] *)
Definition ss_clear : script unit := λ _, (∅, Ok tt).

(** [st.session_state[key].append(x)]: the list that the state holds under
    [key] is extended in place. *)
Definition ss_append (key : string) (x : pyval) : script unit :=
  v ← ss_getitem key;
  v' ← lift (py_append v x);
  ss_setitem key v'.

(** ** The script, block by block *)

(** Session State Initialization: this ensures that the keys exist in the
    session state. *)
Definition session_state_init : script unit :=
  b ← ss_contains "chat_answers_history";
  (if b : bool then mret tt else ss_setitem "chat_answers_history" (VList []));;
  b ← ss_contains "user_prompt_history";
  (if b : bool then mret tt else ss_setitem "user_prompt_history" (VList []));;
  b ← ss_contains "chat_history";
  (if b : bool then mret tt else ss_setitem "chat_history" (VList [])).

(** The state of a session at its first run. *)
Definition initial_state : gmap string pyval := (session_state_init ∅).1.

(** The button "Clear Chat History": [st.session_state.clear()], then
    [st.rerun()] starts the script again from its first line, and the new run
    goes through the initialization block before anything reads the logs. *)
Definition clear_chat_history : script unit :=
  ss_clear;; session_state_init.

(** [doc.metadata.get("source", "Unknown")] *)
Definition doc_source (doc : pyval) : result pyval :=
  metadata ← py_metadata doc;
  py_get metadata "source" (VStr "Unknown").

(** The answer of a response, as lines 112 to 117 leave it in [answer]. *)
Definition get_answer (response_dict : pyval) : result pyval :=
  answer ← py_get response_dict "answer" (VStr "Sorry, I couldn't generate a response.");
  Ok (if isinstance_str answer then answer else VStr (py_str answer)).

(** The sources of a response, as line 119 leaves them in [sources]. *)
Definition get_sources (response_dict : pyval) : result (list pyval) :=
  context ← py_get response_dict "context" (VList []);
  docs ← py_iter context;
  py_set_gen doc_source docs [].

(** The body of [if prompt:], one exchange with the backend [run_llm2]. *)
Definition ask (run_llm2 : string → pyval → result pyval) (prompt : string) : script unit :=
  chat_history ← ss_getitem "chat_history";
  response_dict ← lift (run_llm2 prompt chat_history);
  answer ← lift (py_get response_dict "answer" (VStr "Sorry, I couldn't generate a response."));
  context ← lift (py_get response_dict "context" (VList []));
  let answer := if isinstance_str answer then answer else VStr (py_str answer) in
  docs ← lift (py_iter context);
  sources ← lift (py_set_gen doc_source docs []);
  citations ← lift (create_sources_string sources);
  let formatted_response := py_str answer +:+ LF +:+ LF +:+ citations in
  ss_append "user_prompt_history" (VStr prompt);;
  ss_append "chat_answers_history" (VStr formatted_response);;
  ss_append "chat_history" (VTuple [VStr "human"; VStr prompt]);;
  ss_append "chat_history" (VTuple [VStr "ai"; answer]).

(** What the page shows: [st.chat_message(name).write(content)] and
    [st.chat_message(name).error(body)]. *)
Inductive sink_event : Type :=
| chat_write (name : string) (content : pyval)
| chat_error (name : string) (body : string).

(** One turn of the display loop. *)
Definition display_pair (user_query generated_response : pyval) : list sink_event :=
  [ chat_write "user" user_query;
    if isinstance_str generated_response
    then chat_write "assistant" generated_response
    else chat_error "assistant"
           ("Invalid response format found in history: " +:+ py_type generated_response) ].

(** Display Chat History.  [zip] stops at the shorter of its two arguments. *)
Definition display_chat_history : script (list sink_event) :=
  answers ← ss_getitem "chat_answers_history";
  if py_truthy answers then
    user_prompt_history ← ss_getitem "user_prompt_history";
    chat_answers_history ← ss_getitem "chat_answers_history";
    prompts ← lift (py_iter user_prompt_history);
    answers ← lift (py_iter chat_answers_history);
    mret (concat (zip_with display_pair prompts answers))
  else mret [].

(** One run of the page below the sidebar, for the text [prompt] of the input
    box. *)
Definition main_page (run_llm2 : string → pyval → result pyval) (prompt : string)
    : script (list sink_event) :=
  session_state_init;;
  (if negb (String.eqb prompt "") then ask run_llm2 prompt else mret tt);;
  display_chat_history.

(** ** Vocabulary of the statements *)

(** The three logs of a session: Prompt Log, Answer Log and Turn History. *)
Definition logs (st : gmap string pyval) (prompts answers history : list pyval) : Prop :=
  st !! "user_prompt_history" = Some (VList prompts) ∧
  st !! "chat_answers_history" = Some (VList answers) ∧
  st !! "chat_history" = Some (VList history).

(** What one exchange computes before it touches the logs: the clean answer
    and the displayed answer. *)
Definition exchange (run_llm2 : string → pyval → result pyval) (prompt : string)
    (chat_history : pyval) : result (pyval * string) :=
  response_dict ← run_llm2 prompt chat_history;
  answer ← get_answer response_dict;
  sources ← get_sources response_dict;
  citations ← create_sources_string sources;
  Ok (answer, py_str answer +:+ LF +:+ LF +:+ citations).

(** The logs after one more exchange. *)
Definition record_exchange (prompt : string) (answer : pyval) (formatted_response : string)
    (st : gmap string pyval) (prompts answers history : list pyval) : gmap string pyval :=
  <["chat_history" :=
      VList ((history ++ [VTuple [VStr "human"; VStr prompt]]) ++ [VTuple [VStr "ai"; answer]])]>
  (<["chat_history" := VList (history ++ [VTuple [VStr "human"; VStr prompt]])]>
  (<["chat_answers_history" := VList (answers ++ [VStr formatted_response])]>
  (<["user_prompt_history" := VList (prompts ++ [VStr prompt])]> st))).

(** A session: the exchanges asked one after the other, each with the backend
    of its day.  An exchange that raises ends its run of the script; the
    session state stays and the next run starts from it. *)
Definition run_asks (calls : list ((string → pyval → result pyval) * string))
    (st : gmap string pyval) : gmap string pyval :=
  foldl (λ st call, (ask call.1 call.2 st).1) st calls.

(** A context item as the backend is meant to send it: an object whose
    [metadata] is a dictionary in which [source], if present, is text. *)
Definition document_ok (doc : pyval) : bool :=
  match doc with
  | VObj _ _ attrs =>
      match assoc "metadata" attrs with
      | Some (VDict metadata) =>
          match assoc "source" metadata with
          | None | Some (VStr _) => true
          | _ => false
          end
      | _ => false
      end
  | _ => false
  end.

(** A context item that has no source identifier. *)
Definition lacks_source (doc : pyval) : bool :=
  match doc with
  | VObj _ _ attrs =>
      match assoc "metadata" attrs with
      | Some (VDict metadata) => bool_decide (assoc "source" metadata = None)
      | _ => false
      end
  | _ => false
  end.

(** [sorted] on text alone. *)
Fixpoint str_insert (x : string) (l : list string) : list string :=
  match l with
  | [] => [x]
  | y :: l' => if String.ltb y x then y :: str_insert x l' else x :: y :: l'
  end.

Fixpoint str_sorted (l : list string) : list string :=
  match l with
  | [] => []
  | x :: l' => str_insert x (str_sorted l')
  end.

(** The numbered lines of a citation block. *)
Definition numbered (ids : list string) : list string :=
  imap (λ i id, pretty (i + 1) +:+ ". " +:+ id) ids.

(** The scenario of the specification: a context item that exposes the
    source [source], and the response whose context cites docs/a twice. *)
Definition cited (id : N) (source : string) : pyval :=
  VObj id "langchain_core.documents.base.Document"
    [("page_content", VStr ""); ("metadata", VDict [("source", VStr source)])].

Definition chain_response (i j k : N) : pyval :=
  VDict [("answer", VStr "A chain links calls.");
         ("context", VList [cited i "docs/a"; cited j "docs/a"; cited k "docs/b"])].

(** A context item without a source identifier, and a response that has
    one. *)
Definition unsourced (id : N) : pyval :=
  VObj id "langchain_core.documents.base.Document"
    [("page_content", VStr ""); ("metadata", VDict [])].

Definition unsourced_response (i j : N) : pyval :=
  VDict [("answer", VStr "hello");
         ("context", VList [unsourced i; cited j "docs/a"])].

(** ** The sidebar

    The profile picture comes from the network ([requests]) and is decoded by
    the imaging library ([PIL]); both are outside the script and stay
    abstract.  What they raise is either [requests.RequestException] (or a
    subclass of it, named by [cls]) or any other exception. *)

Inductive raised : Type :=
| RequestException (cls : string)
| OtherException (e : exn).

Inductive outcome (A : Type) : Type :=
| Returns (a : A)
| Raises (r : raised).
Arguments Returns {A} a.
Arguments Raises {A} r.

#[global] Instance outcome_bind : MBind outcome := λ A B f m,
  match m with
  | Returns a => f a
  | Raises r => Raises r
  end.

Record http_response : Type := { status_code : Z; content : string }.

(** [response.raise_for_status()]: an [HTTPError] for a client or server
    error status. *)
Definition raise_for_status (response : http_response) : outcome unit :=
  if ((400 <=? status_code response) && (status_code response <? 600))%Z
  then Raises (RequestException "HTTPError")
  else Returns tt.

Section sidebar.
Variable Image : Type.
(** [Image.new(mode, size, color)] and [Image.open(BytesIO(content))] *)
Variable Image_new : string → Z * Z → string → Image.
Variable Image_open : string → outcome Image.
(** [hash(v)] on a hashable value, and [requests.get(url)] *)
Variable py_hash : pyval → Z.
Variable requests_get : string → outcome http_response.

Definition gravatar_url_of (email : pyval) : outcome string :=
  if py_hashable email
  then Returns ("https://www.gravatar.com/avatar/" +:+ pretty (py_hash email) +:+
                "?d=identicon&s=150")
  else Raises (OtherException TypeError).

(** Fetches a profile picture from Gravatar. *)
Definition get_profile_picture (email : pyval) : outcome Image :=
  match
    gravatar_url ← gravatar_url_of email;
    response ← requests_get gravatar_url;
    raise_for_status response;;
    Image_open (content response)
  with
  | Raises (RequestException _) => Returns (Image_new "RGB" (150, 150)%Z "grey")
  | other => other
  end.
End sidebar.

(** ** More vocabulary *)

(** The keys of the three logs. *)
Definition log_keys : list string :=
  ["chat_answers_history"; "user_prompt_history"; "chat_history"].

(** [if key not in st.session_state: st.session_state[key] = []] *)
Definition ensure_key (key : string) (st : gmap string pyval) : gmap string pyval :=
  if bool_decide (is_Some (st !! key)) then st else <[key := VList []]> st.

(** Logs in which every exchange was recorded whole: a query, the displayed
    answer (clean answer, blank line, citation block) and the two turns. *)
Inductive recorded : list pyval → list pyval → list pyval → Prop :=
| recorded_nil : recorded [] [] []
| recorded_snoc prompts answers history q a c :
    recorded prompts answers history →
    recorded (prompts ++ [VStr q])
             (answers ++ [VStr (a +:+ LF +:+ LF +:+ c)])
             (history ++ [VTuple [VStr "human"; VStr q]; VTuple [VStr "ai"; VStr a]]).

(** A context item whose source cannot enter the source set: it cannot be
    read, or it cannot be hashed. *)
Definition unusable (doc : pyval) : bool :=
  match doc_source doc with
  | Ok v => negb (py_hashable v)
  | Raise _ => true
  end.

(** Text without a line feed. *)
Fixpoint one_line (s : string) : bool :=
  match s with
  | EmptyString => true
  | String c s' => negb (Ascii.eqb c "010"%char) && one_line s'
  end.

(** Runs the first step of a script and the binds of [result] it exposes. *)
Ltac run_script :=
  unfold mbind at 1, script_bind at 1, lift at 1; cbn [mbind result_bind].

(** * Properties *)

(** ** Sorting *)

Section sorting.
Implicit Types (x y : string) (l : list string).

Lemma ltb_le x y : String.ltb x y = true → String.le x y.
Proof.
  unfold String.le, String.leb, String.ltb.
  destruct (String.compare x y); done.
Qed.

Lemma not_ltb_le x y : String.ltb y x = false → String.le x y.
Proof.
  unfold String.le, String.leb, String.ltb.
  rewrite (String.compare_antisym y x).
  destruct (String.compare x y); simpl; done.
Qed.

Lemma str_insert_perm x l : str_insert x l ≡ₚ x :: l.
Proof.
  induction l as [|y l IH]; simpl; [done|].
  destruct (String.ltb y x); [|done].
  rewrite IH. apply Permutation_swap.
Qed.

Lemma str_sorted_perm l : str_sorted l ≡ₚ l.
Proof.
  induction l as [|x l IH]; simpl; [done|].
  by rewrite str_insert_perm, IH.
Qed.

Lemma str_insert_hd x y l : String.le y x → HdRel String.le y l → HdRel String.le y (str_insert x l).
Proof.
  intros Hyx [|z l' Hz]; simpl; [by constructor|].
  destruct (String.ltb z x); by constructor.
Qed.

Lemma str_insert_sorted x l : Sorted String.le l → Sorted String.le (str_insert x l).
Proof.
  induction 1 as [|y l Hl IH Hy]; simpl; [by repeat constructor|].
  destruct (String.ltb y x) eqn:Hlt.
  - constructor; [done|]. apply str_insert_hd; [by apply ltb_le|done].
  - constructor; [by constructor|]. constructor. by apply not_ltb_le.
Qed.

Lemma str_sorted_sorted l : StronglySorted String.le (str_sorted l).
Proof.
  apply Sorted_StronglySorted; [apply _|].
  induction l as [|x l IH]; simpl; [constructor|].
  by apply str_insert_sorted.
Qed.

(** The sorted list depends on the elements only. *)
Lemma str_sorted_unique l1 l2 : l1 ≡ₚ l2 → str_sorted l1 = str_sorted l2.
Proof.
  intros Hperm.
  apply (StronglySorted_unique String.le); [apply str_sorted_sorted..|].
  by rewrite !str_sorted_perm.
Qed.


Lemma py_insert_str x l :
  py_insert (VStr x) (VStr <$> l) = Ok (VStr <$> str_insert x l).
Proof.
  induction l as [|y l IH]; csimpl; [done|].
  destruct (String.ltb y x); csimpl; [|done].
  by rewrite IH.
Qed.

Lemma py_sorted_str l : py_sorted (VStr <$> l) = Ok (VStr <$> str_sorted l).
Proof.
  induction l as [|x l IH]; csimpl; [done|].
  rewrite IH. csimpl. apply py_insert_str.
Qed.


(** The formatter on a set of text identifiers. *)
Lemma create_sources_string_str l :
  create_sources_string (VStr <$> l) =
  Ok (if l is [] then ""
      else "sources:" +:+ LF +:+ String.concat LF (numbered (str_sorted l))).
Proof.
  destruct l as [|x l]; [done|].
  unfold create_sources_string. rewrite fmap_cons, <-fmap_cons.
  rewrite py_sorted_str. csimpl. do 3 f_equal.
  unfold numbered. rewrite imap_fmap. reflexivity.
Qed.
End sorting.

(** ** Session state *)

Lemma ss_append_list key x l (st : gmap string pyval) :
  st !! key = Some (VList l) →
  ss_append key x st = (<[key := VList (l ++ [x])]> st, Ok tt).
Proof.
  intros Hkey. unfold ss_append, ss_getitem, mbind, script_bind, lift, ss_setitem.
  by rewrite Hkey.
Qed.

(** With an empty input box the page skips the exchange: the backend is not
    called. *)
Lemma main_page_blank run_llm2 :
  main_page run_llm2 "" = (session_state_init;; mret tt;; display_chat_history).
Proof. reflexivity. Qed.

Lemma logs_initial_state : logs initial_state [] [] [].
Proof. by vm_compute. Qed.

Lemma logs_record_exchange prompt answer formatted_response st prompts answers history :
  logs st prompts answers history →
  logs (record_exchange prompt answer formatted_response st prompts answers history)
    (prompts ++ [VStr prompt]) (answers ++ [VStr formatted_response])
    (history ++ [VTuple [VStr "human"; VStr prompt]; VTuple [VStr "ai"; answer]]).
Proof.
  intros (Hp & Ha & Hh). unfold record_exchange. split_and!.
  - do 3 (rewrite lookup_insert_ne by done). by rewrite lookup_insert_eq.
  - do 2 (rewrite lookup_insert_ne by done). by rewrite lookup_insert_eq.
  - by rewrite lookup_insert_eq, <-(assoc_L (++)).
Qed.

(** One exchange, on a session whose logs are lists: nothing is written
    unless every step before the first [append] returned, and then all four
    entries are. *)
Lemma ask_exchange run_llm2 prompt st prompts answers history :
  logs st prompts answers history →
  ask run_llm2 prompt st =
  match exchange run_llm2 prompt (VList history) with
  | Ok (answer, formatted_response) =>
      (record_exchange prompt answer formatted_response st prompts answers history, Ok tt)
  | Raise e => (st, Raise e)
  end.
Proof.
  intros (Hp & Ha & Hh).
  unfold ask, exchange, get_answer, get_sources.
  unfold mbind at 1, script_bind at 1, ss_getitem at 1. rewrite Hh.
  run_script. destruct (run_llm2 _ _) as [response_dict|e]; [|done].
  run_script. destruct (py_get response_dict "answer" _) as [a|e]; [|done].
  run_script. destruct (py_get response_dict "context" _) as [context|e]; [|done].
  run_script. destruct (py_iter context) as [docs|e]; [|done].
  run_script. destruct (py_set_gen _ _ _) as [sources|e]; [|done].
  run_script. destruct (create_sources_string sources) as [citations|e]; [|done].
  set (answer := if isinstance_str a then a else VStr (py_str a)).
  set (formatted_response := py_str answer +:+ LF +:+ LF +:+ citations).
  unfold mbind at 1, script_bind at 1.
  rewrite (ss_append_list _ _ prompts) by done.
  unfold mbind at 1, script_bind at 1.
  rewrite (ss_append_list _ _ answers) by (by rewrite lookup_insert_ne).
  unfold mbind at 1, script_bind at 1.
  rewrite (ss_append_list _ _ history) by (by rewrite !lookup_insert_ne).
  rewrite (ss_append_list _ _ (history ++ [VTuple [VStr "human"; VStr prompt]]))
    by (by rewrite lookup_insert_eq).
  done.
Qed.

Lemma ask_returns run_llm2 prompt st prompts answers history answer formatted_response :
  logs st prompts answers history →
  exchange run_llm2 prompt (VList history) = Ok (answer, formatted_response) →
  ∃ st', ask run_llm2 prompt st = (st', Ok tt) ∧
    logs st' (prompts ++ [VStr prompt]) (answers ++ [VStr formatted_response])
      (history ++ [VTuple [VStr "human"; VStr prompt]; VTuple [VStr "ai"; answer]]).
Proof.
  intros Hlogs Hex. eexists. split.
  - by rewrite (ask_exchange _ _ _ _ _ _ Hlogs), Hex.
  - by apply logs_record_exchange.
Qed.

Lemma ask_inv run_llm2 prompt st st' prompts answers history :
  logs st prompts answers history →
  ask run_llm2 prompt st = (st', Ok tt) →
  ∃ answer formatted_response,
    exchange run_llm2 prompt (VList history) = Ok (answer, formatted_response) ∧
    logs st' (prompts ++ [VStr prompt]) (answers ++ [VStr formatted_response])
      (history ++ [VTuple [VStr "human"; VStr prompt]; VTuple [VStr "ai"; answer]]).
Proof.
  intros Hlogs. rewrite (ask_exchange _ _ _ _ _ _ Hlogs).
  destruct (exchange _ _ _) as [[answer formatted_response]|e]; [|done].
  intros [= <-]. exists answer, formatted_response.
  split; [done|]. by apply logs_record_exchange.
Qed.

Lemma exchange_returns run_llm2 prompt chat_history response_dict answer sources citations :
  run_llm2 prompt chat_history = Ok response_dict →
  get_answer response_dict = Ok answer →
  get_sources response_dict = Ok sources →
  create_sources_string sources = Ok citations →
  exchange run_llm2 prompt chat_history =
  Ok (answer, py_str answer +:+ LF +:+ LF +:+ citations).
Proof.
  intros Hr Ha Hs Hc. unfold exchange.
  rewrite Hr; cbn [mbind result_bind]. rewrite Ha; cbn [mbind result_bind].
  rewrite Hs; cbn [mbind result_bind]. by rewrite Hc.
Qed.

Lemma exchange_inv run_llm2 prompt chat_history answer formatted_response :
  exchange run_llm2 prompt chat_history = Ok (answer, formatted_response) →
  ∃ response_dict sources citations,
    run_llm2 prompt chat_history = Ok response_dict ∧
    get_answer response_dict = Ok answer ∧
    get_sources response_dict = Ok sources ∧
    create_sources_string sources = Ok citations ∧
    formatted_response = py_str answer +:+ LF +:+ LF +:+ citations.
Proof.
  unfold exchange.
  destruct (run_llm2 _ _) as [response_dict|]; cbn [mbind result_bind]; [|done].
  destruct (get_answer _) as [a|] eqn:Ha; cbn [mbind result_bind]; [|done].
  destruct (get_sources _) as [sources|] eqn:Hs; cbn [mbind result_bind]; [|done].
  destruct (create_sources_string _) as [citations|] eqn:Hc; cbn [mbind result_bind]; [|done].
  intros [= <- <-]. by exists response_dict, sources, citations.
Qed.

(** The clean answer is always text. *)
Lemma get_answer_dict entries :
  get_answer (VDict entries) =
  Ok (VStr match assoc "answer" entries with
           | None => "Sorry, I couldn't generate a response."
           | Some (VStr s) => s
           | Some v => py_str v
           end).
Proof.
  unfold get_answer, py_get. cbn [mbind result_bind].
  destruct (assoc "answer" entries) as [[]|]; done.
Qed.

Lemma get_answer_text response_dict answer :
  get_answer response_dict = Ok answer → answer = VStr (py_str answer).
Proof.
  unfold get_answer.
  destruct (py_get _ _ _) as [a|]; cbn [mbind result_bind]; [|done].
  intros [= <-]. by destruct a.
Qed.

(** ** Sources *)

Lemma existsb_py_eq_str s (acc : list string) :
  existsb (py_eq (VStr s)) (VStr <$> acc) = bool_decide (s ∈ acc).
Proof.
  induction acc as [|t acc IH]; [done|].
  rewrite fmap_cons. cbn [existsb]. rewrite IH.
  change (py_eq (VStr s) (VStr t)) with (String.eqb s t).
  destruct (String.eqb_spec s t) as [->|Hne]; simpl.
  - by rewrite bool_decide_eq_true_2 by left.
  - apply bool_decide_ext. rewrite elem_of_cons.
    split; [by right|by intros [?|?]].
Qed.

Lemma py_set_add_str (acc : list string) s :
  py_set_add (VStr <$> acc) (VStr s) =
  Ok (VStr <$> (if bool_decide (s ∈ acc) then acc else acc ++ [s])).
Proof.
  unfold py_set_add. cbn [py_hashable]. rewrite existsb_py_eq_str.
  case_bool_decide; [done|]. by rewrite fmap_app.
Qed.

Lemma doc_source_ok doc :
  document_ok doc = true →
  ∃ s, doc_source doc = Ok (VStr s) ∧ (lacks_source doc = true → s = "Unknown").
Proof.
  destruct doc as [| | | | | | |id cls attrs]; try done.
  unfold document_ok, lacks_source, doc_source, py_metadata.
  destruct (assoc "metadata" attrs) as [[| | | | | |metadata|]|]; try done.
  cbn [mbind result_bind py_get].
  destruct (assoc "source" metadata) as [[]|]; try done.
  - intros _. eexists. split; [done|]. by intros ?%bool_decide_eq_true.
  - intros _. by eexists.
Qed.

(** A context of well-formed items yields a set of text identifiers: it has
    the identifiers seen so far, one for every item, and no repetition. *)
Lemma py_set_gen_documents docs (acc : list string) :
  Forall (λ doc, document_ok doc = true) docs →
  ∃ sources : list string,
    py_set_gen doc_source docs (VStr <$> acc) = Ok (VStr <$> sources) ∧
    acc ⊆ sources ∧
    (∀ doc s, doc ∈ docs → doc_source doc = Ok (VStr s) → s ∈ sources) ∧
    (NoDup acc → NoDup sources).
Proof.
  intros Hdocs. revert acc.
  induction Hdocs as [|doc docs Hdoc _ IH]; intros acc.
  - exists acc. split_and!; [done..| |done]. by intros ?? ?%elem_of_nil.
  - destruct (doc_source_ok _ Hdoc) as (s & Hs & _).
    cbn [py_set_gen]. rewrite Hs. cbn [mbind result_bind].
    rewrite py_set_add_str. cbn [mbind result_bind].
    destruct (IH (if bool_decide (s ∈ acc) then acc else acc ++ [s]))
      as (sources & Hgen & Hsub & Hall & Hnodup).
    exists sources. split_and!; [done| | |].
    + intros x Hx. apply Hsub. case_bool_decide; [done|].
      apply elem_of_app. by left.
    + intros doc' s' [->|Hin]%elem_of_cons Hs'; [|by eapply Hall].
      rewrite Hs in Hs'. injection Hs' as <-. apply Hsub.
      case_bool_decide; [done|]. apply elem_of_app. right. by left.
    + intros Hacc. apply Hnodup. case_bool_decide; [done|].
      apply NoDup_app. split_and!; [done| |apply NoDup_singleton].
      by intros x Hx ->%list_elem_of_singleton.
Qed.

(** ** Display *)

Lemma display_chat_history_lists (st : gmap string pyval) prompts answers :
  st !! "user_prompt_history" = Some (VList prompts) →
  st !! "chat_answers_history" = Some (VList answers) →
  display_chat_history st = (st, Ok (concat (zip_with display_pair prompts answers))).
Proof.
  intros Hp Ha. unfold display_chat_history.
  unfold mbind at 1, script_bind at 1, ss_getitem at 1. rewrite Ha.
  destruct answers as [|a answers].
  - by rewrite zip_with_nil_r.
  - cbn [py_truthy length bool_decide negb].
    replace (negb (bool_decide (S (length answers) = 0))) with true
      by (by rewrite bool_decide_eq_false_2).
    unfold mbind at 1, script_bind at 1, ss_getitem at 1. rewrite Hp.
    unfold mbind at 1, script_bind at 1, ss_getitem at 1. rewrite Ha.
    done.
Qed.

Lemma display_length prompts answers :
  length (concat (zip_with display_pair prompts answers)) =
  2 * (length prompts `min` length answers).
Proof.
  revert answers. induction prompts as [|q prompts IH]; intros [|a answers]; try done.
  cbn [zip_with concat length app display_pair]. rewrite IH. simpl. lia.
Qed.

Lemma display_lookup prompts answers i q a :
  prompts !! i = Some q → answers !! i = Some a →
  concat (zip_with display_pair prompts answers) !! (2 * i) = Some (chat_write "user" q) ∧
  concat (zip_with display_pair prompts answers) !! (2 * i + 1) =
    Some (if isinstance_str a
          then chat_write "assistant" a
          else chat_error "assistant"
                 ("Invalid response format found in history: " +:+ py_type a)).
Proof.
  revert answers i.
  induction prompts as [|q' prompts IH]; intros [|a' answers] [|i]; try done.
  - by intros [= ->] [= ->].
  - cbn [lookup list_lookup]. intros Hq Ha.
    replace (2 * S i) with (S (S (2 * i))) by lia.
    apply (IH _ _ Hq Ha).
Qed.

(** ** Text *)

Lemma append_neq (a x : string) : x ≠ "" → a ≠ a +:+ x.
Proof.
  intros Hx. induction a as [|c a IH]; simpl; [done|].
  by intros [= ?].
Qed.

(** * The citation formatter *)

Lemma concat_header (lines : list string) :
  lines ≠ [] →
  String.concat LF ("sources:" :: lines) = "sources:" +:+ LF +:+ String.concat LF lines.
Proof. by destruct lines. Qed.

Lemma numbered_lookup ids i id :
  ids !! i = Some id → numbered ids !! i = Some (pretty (i + 1) +:+ ". " +:+ id).
Proof. intros Hi. unfold numbered. by rewrite list_lookup_imap, Hi. Qed.

Lemma numbered_length ids : length (numbered ids) = length ids.
Proof. apply length_imap. Qed.

(** C6.  For every set [S] of source identifiers, [create_sources_string]
    returns the empty string if and only if [S] is empty.  For a non-empty
    [S] it returns the header line [sources:] followed by one line per
    identifier: the identifiers of [S] in ascending lexicographic order, the
    line at position [i] (from 0) being numbered [i + 1]. *)
Theorem create_sources_string_format (S : list string) :
  ∃ sorted : list string,
    sorted ≡ₚ S ∧
    StronglySorted String.le sorted ∧
    create_sources_string (VStr <$> S) =
      Ok (if S is [] then "" else String.concat LF ("sources:" :: numbered sorted)) ∧
    (create_sources_string (VStr <$> S) = Ok "" ↔ S = []) ∧
    length (numbered sorted) = length S ∧
    ∀ i id, sorted !! i = Some id →
      numbered sorted !! i = Some (pretty (i + 1) +:+ ". " +:+ id).
Proof.
  exists (str_sorted S).
  assert (S ≠ [] → numbered (str_sorted S) ≠ []) as Hne.
  { intros HS Hnil. apply (f_equal length) in Hnil.
    rewrite numbered_length, (Permutation_length (str_sorted_perm S)) in Hnil.
    by destruct S. }
  assert (create_sources_string (VStr <$> S) =
    Ok (if S is [] then "" else String.concat LF ("sources:" :: numbered (str_sorted S))))
    as Hfmt.
  { rewrite create_sources_string_str. destruct S as [|x S]; [done|].
    by rewrite concat_header by (by apply Hne). }
  split_and!.
  - apply str_sorted_perm.
  - apply str_sorted_sorted.
  - done.
  - rewrite Hfmt. destruct S as [|x S]; [done|]. split; [|done].
    rewrite concat_header by (by apply Hne). by intros [=].
  - by rewrite numbered_length, (Permutation_length (str_sorted_perm S)).
  - apply numbered_lookup.
Qed.

(** C7.  [create_sources_string] is insensitive to the order in which its
    input enumerates the set: two enumerations of the same set of source
    identifiers produce the same citation string. *)
Theorem create_sources_string_order (l1 l2 : list string) :
  NoDup l1 → NoDup l2 → (∀ x, x ∈ l1 ↔ x ∈ l2) →
  create_sources_string (VStr <$> l1) = create_sources_string (VStr <$> l2).
Proof.
  intros Hl1 Hl2 Hiff.
  assert (l1 ≡ₚ l2) as Hperm by (by apply NoDup_Permutation).
  rewrite !create_sources_string_str, (str_sorted_unique l1 l2 Hperm).
  destruct l1, l2; try done.
  - by apply Permutation_nil_cons in Hperm.
  - symmetry in Hperm. by apply Permutation_nil_cons in Hperm.
Qed.

Lemma create_sources_string_order_witness :
  NoDup ["docs/b"; "docs/a"; "docs/c"] ∧ NoDup ["docs/c"; "docs/a"; "docs/b"] ∧
  create_sources_string (VStr <$> ["docs/b"; "docs/a"; "docs/c"]) =
  create_sources_string (VStr <$> ["docs/c"; "docs/a"; "docs/b"]).
Proof.
  assert (NoDup ["docs/b"; "docs/a"; "docs/c"]) as H1
    by (apply (bool_decide_unpack _); vm_compute; reflexivity).
  assert (NoDup ["docs/c"; "docs/a"; "docs/b"]) as H2
    by (apply (bool_decide_unpack _); vm_compute; reflexivity).
  split_and!; [done..|].
  apply (create_sources_string_order _ _ H1 H2).
  intros x. rewrite !elem_of_cons, !elem_of_nil. tauto.
Defined.

(** * The ask step *)

(** C1.  For the query "What is a chain?" and a backend response whose answer
    is "A chain links calls." and whose context cites docs/a, docs/a and
    docs/b, the source set is docs/a, docs/b (the repeated identifier is kept
    once) and one ask step appends exactly the answer text, a blank line and
    the citation block to the Answer Log. *)
Theorem ask_chain_scenario run_llm2 (i j k : N) st prompts answers history :
  logs st prompts answers history →
  run_llm2 "What is a chain?" (VList history) = Ok (chain_response i j k) →
  get_sources (chain_response i j k) = Ok [VStr "docs/a"; VStr "docs/b"] ∧
  ∃ st', ask run_llm2 "What is a chain?" st = (st', Ok tt) ∧
    logs st'
      (prompts ++ [VStr "What is a chain?"])
      (answers ++ [VStr ("A chain links calls." +:+ LF +:+ LF +:+
                         "sources:" +:+ LF +:+ "1. docs/a" +:+ LF +:+ "2. docs/b")])
      (history ++ [VTuple [VStr "human"; VStr "What is a chain?"];
                   VTuple [VStr "ai"; VStr "A chain links calls."]]).
Proof.
  intros Hlogs Hr. split; [reflexivity|].
  apply (ask_returns _ _ _ _ _ _ (VStr "A chain links calls.") _ Hlogs).
  unfold exchange. rewrite Hr. reflexivity.
Qed.

Lemma ask_chain_scenario_witness :
  get_sources (chain_response 1 2 3) = Ok [VStr "docs/a"; VStr "docs/b"] ∧
  ∃ st', ask (λ _ _, Ok (chain_response 1 2 3)) "What is a chain?" initial_state = (st', Ok tt) ∧
    logs st'
      ([] ++ [VStr "What is a chain?"])
      ([] ++ [VStr ("A chain links calls." +:+ LF +:+ LF +:+
                    "sources:" +:+ LF +:+ "1. docs/a" +:+ LF +:+ "2. docs/b")])
      ([] ++ [VTuple [VStr "human"; VStr "What is a chain?"];
              VTuple [VStr "ai"; VStr "A chain links calls."]]).
Proof.
  apply (ask_chain_scenario (λ _ _, Ok (chain_response 1 2 3)) 1 2 3 initial_state [] [] []).
  - by vm_compute.
  - reflexivity.
Defined.

(** The ask step raises on a context whose items are not documents, and on a
    context that is no sequence; nothing is appended to the logs. *)
Lemma ask_malformed_context_raises :
  ask (λ _ _, Ok (VDict [("answer", VStr "A chain links calls.");
                         ("context", VList [VStr "docs/a"])]))
      "What is a chain?" initial_state
  = (initial_state, Raise AttributeError) ∧
  ask (λ _ _, Ok (VDict [("answer", VStr "A chain links calls.");
                         ("context", VNone)]))
      "What is a chain?" initial_state
  = (initial_state, Raise TypeError).
Proof. split; by vm_compute. Qed.

Lemma get_sources_documents entries docs :
  assoc "context" entries = Some (VList docs) →
  Forall (λ doc, document_ok doc = true) docs →
  ∃ sources : list string,
    get_sources (VDict entries) = Ok (VStr <$> sources) ∧
    NoDup sources ∧
    ∀ doc, doc ∈ docs → lacks_source doc = true → "Unknown" ∈ sources.
Proof.
  intros Hctx Hdocs.
  destruct (py_set_gen_documents docs [] Hdocs) as (sources & Hgen & _ & Hall & Hnodup).
  exists sources. split_and!.
  - unfold get_sources, py_get. rewrite Hctx. cbn [default mbind result_bind py_iter].
    apply Hgen.
  - apply Hnodup, NoDup_nil_2.
  - intros doc Hin Hlacks. apply (Hall doc); [done|].
    rewrite Forall_forall in Hdocs.
    destruct (doc_source_ok doc (Hdocs _ Hin)) as (s & Hs & Hunknown).
    by rewrite Hs, (Hunknown Hlacks).
Qed.

Lemma get_sources_absent entries :
  assoc "context" entries = None → get_sources (VDict entries) = Ok [].
Proof. intros Hctx. unfold get_sources, py_get. by rewrite Hctx. Qed.

(** C2, as the code has it.  For every backend response that is a
    dictionary: when [context] is absent it is treated as an empty sequence
    and the citation block is empty; when [context] is a list of documents
    (objects whose [metadata] is a dictionary in which [source], if present,
    is text), the ask step returns, and a document without a source
    identifier contributes "Unknown" to the source set.  An error raised
    while the context is read is not absorbed: the ask step raises it and
    appends nothing. *)
Theorem ask_context_contract run_llm2 prompt st prompts answers history entries :
  logs st prompts answers history →
  run_llm2 prompt (VList history) = Ok (VDict entries) →
  ((assoc "context" entries = None ∨
    ∃ docs, assoc "context" entries = Some (VList docs) ∧
            Forall (λ doc, document_ok doc = true) docs) →
   ∃ (sources : list string) (citations : string),
     get_sources (VDict entries) = Ok (VStr <$> sources) ∧
     create_sources_string (VStr <$> sources) = Ok citations ∧
     (ask run_llm2 prompt st).2 = Ok tt ∧
     (assoc "context" entries = None → sources = [] ∧ citations = "") ∧
     (∀ docs doc, assoc "context" entries = Some (VList docs) →
        doc ∈ docs → lacks_source doc = true → "Unknown" ∈ sources)) ∧
  (∀ e, get_sources (VDict entries) = Raise e →
     ask run_llm2 prompt st = (st, Raise e)).
Proof.
  intros Hlogs Hr. split.
  - intros Hctx.
    assert (∃ sources : list string,
      get_sources (VDict entries) = Ok (VStr <$> sources) ∧
      (assoc "context" entries = None → sources = []) ∧
      (∀ docs doc, assoc "context" entries = Some (VList docs) →
         doc ∈ docs → lacks_source doc = true → "Unknown" ∈ sources))
      as (sources & Hs & Habsent & Hunknown).
    { destruct Hctx as [Hnone|(docs & Hsome & Hdocs)].
      - exists []. split_and!; [by apply get_sources_absent|done|].
        intros ??. by rewrite Hnone.
      - destruct (get_sources_documents _ _ Hsome Hdocs) as (sources & Hs & _ & Hunknown).
        exists sources. split_and!; [done|by rewrite Hsome|].
        intros docs' doc. rewrite Hsome. intros [= <-]. apply Hunknown. }
    exists sources. eexists. split_and!.
    + done.
    + apply create_sources_string_str.
    + rewrite (ask_exchange _ _ _ _ _ _ Hlogs).
      by rewrite (exchange_returns _ _ _ _ _ _ _ Hr (get_answer_dict entries) Hs
                    (create_sources_string_str sources)).
    + intros Hnone. by rewrite (Habsent Hnone).
    + done.
  - intros e He. rewrite (ask_exchange _ _ _ _ _ _ Hlogs). unfold exchange.
    rewrite Hr. cbn [mbind result_bind].
    rewrite get_answer_dict. cbn [mbind result_bind]. by rewrite He.
Qed.

Lemma ask_context_contract_witness :
  ∃ sources : list string,
    get_sources (unsourced_response 1 2) = Ok (VStr <$> sources) ∧
    "Unknown" ∈ sources ∧
    (ask (λ _ _, Ok (unsourced_response 1 2)) "hi" initial_state).2 = Ok tt.
Proof.
  destruct (ask_context_contract (λ _ _, Ok (unsourced_response 1 2)) "hi" initial_state
              [] [] []
              [("answer", VStr "hello");
               ("context", VList [unsourced 1; cited 2 "docs/a"])])
    as [Hreturns _].
  - by vm_compute.
  - reflexivity.
  - destruct Hreturns as (sources & citations & Hs & _ & Hask & _ & Hunknown).
    + right. eexists. split; [reflexivity|]. by repeat constructor.
    + exists sources. split; [exact Hs|]. split; [|exact Hask].
      apply (Hunknown [unsourced 1; cited 2 "docs/a"] (unsourced 1)).
      * reflexivity.
      * by left.
      * reflexivity.
Defined.

(** C3.  For every backend response that is a dictionary, whatever its
    [answer] field holds: the clean answer is the fixed fallback text when
    the field is absent, the field itself when it is text, and its textual
    representation otherwise; and whenever the context of the response yields
    a citation block, the ask step returns and the entry it appends to the
    Answer Log is a string, the clean answer followed by a blank line and the
    citation block. *)
Theorem ask_answer_contract run_llm2 prompt st prompts answers history entries
    sources citations :
  logs st prompts answers history →
  run_llm2 prompt (VList history) = Ok (VDict entries) →
  get_sources (VDict entries) = Ok sources →
  create_sources_string sources = Ok citations →
  ∃ text : string,
    text = match assoc "answer" entries with
           | None => "Sorry, I couldn't generate a response."
           | Some (VStr s) => s
           | Some v => py_str v
           end ∧
    get_answer (VDict entries) = Ok (VStr text) ∧
    ∃ st', ask run_llm2 prompt st = (st', Ok tt) ∧
      logs st'
        (prompts ++ [VStr prompt])
        (answers ++ [VStr (text +:+ LF +:+ LF +:+ citations)])
        (history ++ [VTuple [VStr "human"; VStr prompt]; VTuple [VStr "ai"; VStr text]]).
Proof.
  intros Hlogs Hr Hs Hc. eexists. split; [reflexivity|].
  split; [apply get_answer_dict|].
  apply (ask_returns _ _ _ _ _ _ _ _ Hlogs).
  apply (exchange_returns _ _ _ _ _ _ _ Hr (get_answer_dict entries) Hs Hc).
Qed.

Lemma ask_answer_contract_witness :
  ∃ text : string,
    text = "{'steps': [1, 'two', None]}" ∧
    get_answer (VDict [("answer", VDict [("steps", VList [VInt 1; VStr "two"; VNone])])])
      = Ok (VStr text) ∧
    ∃ st',
      ask (λ _ _, Ok (VDict [("answer", VDict [("steps", VList [VInt 1; VStr "two"; VNone])])]))
          "hi" initial_state = (st', Ok tt) ∧
      logs st'
        ([] ++ [VStr "hi"])
        ([] ++ [VStr (text +:+ LF +:+ LF +:+ "")])
        ([] ++ [VTuple [VStr "human"; VStr "hi"]; VTuple [VStr "ai"; VStr text]]).
Proof.
  apply (ask_answer_contract
           (λ _ _, Ok (VDict [("answer", VDict [("steps", VList [VInt 1; VStr "two"; VNone])])]))
           "hi" initial_state [] [] []
           [("answer", VDict [("steps", VList [VInt 1; VStr "two"; VNone])])] [] "").
  - by vm_compute.
  - reflexivity.
  - reflexivity.
  - reflexivity.
Defined.

(** * Sessions *)

Lemma ask_keeps_lengths run_llm2 prompt st prompts answers history :
  logs st prompts answers history →
  length prompts = length answers →
  length history = 2 * length prompts →
  ∃ prompts' answers' history',
    logs (ask run_llm2 prompt st).1 prompts' answers' history' ∧
    length prompts' = length answers' ∧
    length history' = 2 * length prompts'.
Proof.
  intros Hlogs Hpa Hh. rewrite (ask_exchange _ _ _ _ _ _ Hlogs).
  destruct (exchange _ _ _) as [[answer formatted_response]|e].
  - eexists _, _, _. split; [by apply logs_record_exchange|].
    rewrite !length_app. simpl. lia.
  - by exists prompts, answers, history.
Qed.

(** C4.  After every sequence of ask calls from the initial session state,
    the Prompt Log and the Answer Log have the same length and the Turn
    History is exactly twice as long. *)
Theorem run_asks_lengths (calls : list ((string → pyval → result pyval) * string)) :
  ∃ prompts answers history,
    logs (run_asks calls initial_state) prompts answers history ∧
    length prompts = length answers ∧
    length history = 2 * length prompts.
Proof.
  unfold run_asks.
  assert (∃ prompts answers history,
    logs initial_state prompts answers history ∧
    length prompts = length answers ∧
    length history = 2 * length prompts) as Hinit.
  { exists [], [], []. split; [apply logs_initial_state|done]. }
  revert Hinit. generalize initial_state as st.
  induction calls as [|[run_llm2 prompt] calls IH]; intros st Hst; [done|].
  destruct Hst as (prompts & answers & history & Hlogs & Hpa & Hh).
  cbn [foldl]. apply IH. by eapply ask_keeps_lengths.
Qed.

(** C5.  Two ask calls in a row, with queries [q1], [q2] and backend answers
    that coerce to [a1], [a2], leave in the Turn History exactly
    (human, q1), (ai, a1), (human, q2), (ai, a2), in that order; an ai entry
    is the clean answer, which differs from the displayed answer that the
    Answer Log holds. *)
Theorem two_asks_turn_history run1 run2 q1 q2 r1 r2 a1 a2 st1 st2 :
  run1 q1 (VList []) = Ok r1 →
  get_answer r1 = Ok (VStr a1) →
  ask run1 q1 initial_state = (st1, Ok tt) →
  run2 q2 (VList [VTuple [VStr "human"; VStr q1]; VTuple [VStr "ai"; VStr a1]]) = Ok r2 →
  get_answer r2 = Ok (VStr a2) →
  ask run2 q2 st1 = (st2, Ok tt) →
  ∃ d1 d2,
    logs st2 [VStr q1; VStr q2] [VStr d1; VStr d2]
      [VTuple [VStr "human"; VStr q1]; VTuple [VStr "ai"; VStr a1];
       VTuple [VStr "human"; VStr q2]; VTuple [VStr "ai"; VStr a2]] ∧
    a1 ≠ d1 ∧ a2 ≠ d2.
Proof.
  intros Hr1 Ha1 Hask1 Hr2 Ha2 Hask2.
  destruct (ask_inv _ _ _ _ _ _ _ logs_initial_state Hask1) as (x1 & d1 & Hex1 & Hlogs1).
  destruct (exchange_inv _ _ _ _ _ Hex1) as (r1' & s1 & c1 & Hr1' & Ha1' & _ & _ & ->).
  rewrite Hr1 in Hr1'. injection Hr1' as <-.
  rewrite Ha1 in Ha1'. injection Ha1' as <-.
  destruct (ask_inv _ _ _ _ _ _ _ Hlogs1 Hask2) as (x2 & d2 & Hex2 & Hlogs2).
  destruct (exchange_inv _ _ _ _ _ Hex2) as (r2' & s2 & c2 & Hr2' & Ha2' & _ & _ & ->).
  cbn [app] in Hr2'. rewrite Hr2 in Hr2'. injection Hr2' as <-.
  rewrite Ha2 in Ha2'. injection Ha2' as <-.
  eexists _, _. split; [exact Hlogs2|].
  split; by apply append_neq.
Qed.

Lemma two_asks_turn_history_witness :
  ∃ d1 d2,
    logs (run_asks [(λ _ _, Ok (VDict [("answer", VStr "one")]), "q1");
                    (λ _ _, Ok (VDict [("answer", VInt 2)]), "q2")] initial_state)
      [VStr "q1"; VStr "q2"] [VStr d1; VStr d2]
      [VTuple [VStr "human"; VStr "q1"]; VTuple [VStr "ai"; VStr "one"];
       VTuple [VStr "human"; VStr "q2"]; VTuple [VStr "ai"; VStr "2"]] ∧
    "one" ≠ d1 ∧ "2" ≠ d2.
Proof.
  apply (two_asks_turn_history
           (λ _ _, Ok (VDict [("answer", VStr "one")]))
           (λ _ _, Ok (VDict [("answer", VInt 2)]))
           "q1" "q2" (VDict [("answer", VStr "one")]) (VDict [("answer", VInt 2)])
           "one" "2"
           (ask (λ _ _, Ok (VDict [("answer", VStr "one")])) "q1" initial_state).1).
  - reflexivity.
  - reflexivity.
  - by vm_compute.
  - reflexivity.
  - reflexivity.
  - by vm_compute.
Defined.

(** * Reset *)

(** C9.  From every session state, the reset (the button "Clear Chat
    History" and the run it starts) leaves exactly the state a session has at
    its first run: the three logs, each empty, and nothing else. *)
Theorem clear_chat_history_resets (st : gmap string pyval) :
  clear_chat_history st = (initial_state, Ok tt) ∧
  session_state_init ∅ = (initial_state, Ok tt) ∧
  logs initial_state [] [] [] ∧
  initial_state =
    <["chat_history" := VList []]>
      (<["user_prompt_history" := VList []]>
         (<["chat_answers_history" := VList []]> ∅)).
Proof. split_and!; [reflexivity|reflexivity|apply logs_initial_state|reflexivity]. Qed.

(** * Render *)

Lemma display_no_user_error prompts answers body :
  chat_error "user" body ∉ concat (zip_with display_pair prompts answers).
Proof.
  revert answers. induction prompts as [|q prompts IH]; intros [|a answers];
    try apply not_elem_of_nil.
  cbn [zip_with concat]. rewrite elem_of_app. intros [Hin|Hin]; [|by eapply IH].
  unfold display_pair in Hin.
  apply elem_of_cons in Hin as [?|Hin]; [done|].
  apply list_elem_of_singleton in Hin. by destruct (isinstance_str a).
Qed.

(** C8.  On logs that are lists, whatever their entries, the display pairs
    the Prompt Log and the Answer Log by position and returns: the pair at
    position [i] shows the query and then the answer, and for an answer that
    is not a string it shows, in place of the answer, an error that names the
    type of the entry. *)
Theorem display_never_raises (st : gmap string pyval) prompts answers :
  st !! "user_prompt_history" = Some (VList prompts) →
  st !! "chat_answers_history" = Some (VList answers) →
  ∃ events,
    display_chat_history st = (st, Ok events) ∧
    length events = 2 * (length prompts `min` length answers) ∧
    ∀ i q a, prompts !! i = Some q → answers !! i = Some a →
      events !! (2 * i) = Some (chat_write "user" q) ∧
      (isinstance_str a = true →
       events !! (2 * i + 1) = Some (chat_write "assistant" a)) ∧
      (isinstance_str a = false →
       events !! (2 * i + 1) =
         Some (chat_error "assistant"
                 ("Invalid response format found in history: " +:+ py_type a))).
Proof.
  intros Hp Ha. eexists. split; [by apply display_chat_history_lists|].
  split; [apply display_length|].
  intros i q a Hq Hans.
  destruct (display_lookup _ _ _ _ _ Hq Hans) as [Hquery Hanswer].
  split; [done|]. rewrite Hanswer. by split; intros ->.
Qed.

Lemma display_never_raises_witness :
  ∃ events,
    display_chat_history
      (<["chat_answers_history" := VList [VStr "hello"; VInt 42]]>
         (<["user_prompt_history" := VList [VStr "hi"; VStr "again"]]> initial_state))
    = (<["chat_answers_history" := VList [VStr "hello"; VInt 42]]>
         (<["user_prompt_history" := VList [VStr "hi"; VStr "again"]]> initial_state),
       Ok events) ∧
    events !! 2 = Some (chat_write "user" (VStr "again")) ∧
    events !! 3 =
      Some (chat_error "assistant" "Invalid response format found in history: <class 'int'>").
Proof.
  destruct (display_never_raises
              (<["chat_answers_history" := VList [VStr "hello"; VInt 42]]>
                 (<["user_prompt_history" := VList [VStr "hi"; VStr "again"]]> initial_state))
              [VStr "hi"; VStr "again"] [VStr "hello"; VInt 42])
    as (events & Hdisplay & _ & Hpairs).
  - by vm_compute.
  - by vm_compute.
  - exists events. split; [exact Hdisplay|].
    destruct (Hpairs 1 (VStr "again") (VInt 42)) as (Hquery & _ & Herror);
      [reflexivity..|].
    split; [exact Hquery|]. by apply Herror.
Defined.

(** C10.  The error marker guards the answer only: on logs that are lists,
    the display hands every query of the Prompt Log to the page as it is,
    string or not, and never shows an error in the place of a query. *)
Theorem display_query_unchanged (st : gmap string pyval) prompts answers :
  st !! "user_prompt_history" = Some (VList prompts) →
  st !! "chat_answers_history" = Some (VList answers) →
  ∃ events,
    display_chat_history st = (st, Ok events) ∧
    (∀ i q a, prompts !! i = Some q → answers !! i = Some a →
       events !! (2 * i) = Some (chat_write "user" q)) ∧
    ∀ body, chat_error "user" body ∉ events.
Proof.
  intros Hp Ha. eexists. split; [by apply display_chat_history_lists|].
  split; [|intros body; apply display_no_user_error].
  intros i q a Hq Hans. by destruct (display_lookup _ _ _ _ _ Hq Hans).
Qed.

Lemma display_query_unchanged_witness :
  ∃ events,
    display_chat_history
      (<["chat_answers_history" := VList [VStr "hello"]]>
         (<["user_prompt_history" := VList [VInt 7]]> initial_state))
    = (<["chat_answers_history" := VList [VStr "hello"]]>
         (<["user_prompt_history" := VList [VInt 7]]> initial_state),
       Ok events) ∧
    events !! 0 = Some (chat_write "user" (VInt 7)).
Proof.
  destruct (display_query_unchanged
              (<["chat_answers_history" := VList [VStr "hello"]]>
                 (<["user_prompt_history" := VList [VInt 7]]> initial_state))
              [VInt 7] [VStr "hello"])
    as (events & Hdisplay & Hquery & _).
  - by vm_compute.
  - by vm_compute.
  - exists events. split; [exact Hdisplay|].
    by apply (Hquery 0 (VInt 7) (VStr "hello")).
Defined.

(** * Beyond the claims: the session state initialization *)

Lemma session_state_init_ensure (st : gmap string pyval) :
  session_state_init st =
  (ensure_key "chat_history"
     (ensure_key "user_prompt_history" (ensure_key "chat_answers_history" st)), Ok tt).
Proof.
  unfold session_state_init, ensure_key, mbind, script_bind, ss_contains, ss_setitem,
    mret, script_ret.
  by repeat case_bool_decide.
Qed.

Lemma ensure_key_lookup key key' (st : gmap string pyval) :
  ensure_key key st !! key' =
  match st !! key' with
  | Some v => Some v
  | None => if bool_decide (key = key') then Some (VList []) else None
  end.
Proof.
  unfold ensure_key. case_bool_decide as Hkey.
  - destruct (st !! key') as [v|] eqn:Hv; [done|].
    case_bool_decide as Heq; [|done]. subst. rewrite Hv in Hkey. by destruct Hkey.
  - rewrite lookup_insert. case_decide as Heq; case_bool_decide; try done.
    + subst. destruct (st !! key') eqn:Hv; [|done]. destruct Hkey. by eexists.
    + by destruct (st !! key').
Qed.

Lemma ensure_key_present key (st : gmap string pyval) :
  is_Some (st !! key) → ensure_key key st = st.
Proof. intros Hkey. unfold ensure_key. by rewrite bool_decide_eq_true_2. Qed.

Lemma session_state_init_logs st prompts answers history :
  logs st prompts answers history → session_state_init st = (st, Ok tt).
Proof.
  intros (Hp & Ha & Hh). rewrite session_state_init_ensure.
  rewrite (ensure_key_present "chat_answers_history" st) by (by eexists).
  rewrite (ensure_key_present "user_prompt_history" st) by (by eexists).
  by rewrite (ensure_key_present "chat_history" st) by (by eexists).
Qed.

(** X1.  The initialization block never raises.  It keeps every entry the
    session state already has, creates each missing log as an empty list and
    nothing else, and a second pass changes nothing. *)
Theorem session_state_init_keeps (st : gmap string pyval) :
  ∃ st',
    session_state_init st = (st', Ok tt) ∧
    (∀ key v, st !! key = Some v → st' !! key = Some v) ∧
    (∀ key, st !! key = None →
       st' !! key = if bool_decide (key ∈ log_keys) then Some (VList []) else None) ∧
    session_state_init st' = (st', Ok tt).
Proof.
  eexists. split; [apply session_state_init_ensure|].
  split_and!.
  - intros key v Hv. rewrite !ensure_key_lookup. by rewrite Hv.
  - intros key Hnone. rewrite !ensure_key_lookup, Hnone. unfold log_keys.
    repeat case_bool_decide; try done; exfalso;
      repeat match goal with
      | H : ¬ (_ ∈ _) |- _ => apply H; clear H
      | H : _ ∈ _ |- _ => apply elem_of_cons in H as [?|H]; [congruence|]
      | H : _ ∈ [] |- _ => by apply elem_of_nil in H
      end; subst; repeat constructor.
  - set (st' := ensure_key "chat_history" _).
    assert (∀ key, key ∈ log_keys → is_Some (st' !! key)) as Hsome.
    { intros key Hkey. unfold st'. rewrite !ensure_key_lookup.
      destruct (st !! key); [by eexists|].
      unfold log_keys in Hkey.
      apply elem_of_cons in Hkey as [->|Hkey]; [by eexists|].
      apply elem_of_cons in Hkey as [->|Hkey]; [by eexists|].
      apply list_elem_of_singleton in Hkey as ->. by eexists. }
    rewrite session_state_init_ensure.
    rewrite (ensure_key_present "chat_answers_history" st')
      by (apply Hsome; unfold log_keys; repeat constructor).
    rewrite (ensure_key_present "user_prompt_history" st')
      by (apply Hsome; unfold log_keys; repeat constructor).
    by rewrite (ensure_key_present "chat_history" st')
      by (apply Hsome; unfold log_keys; repeat constructor).
Qed.

(** * Beyond the claims: the ask step *)

Lemma record_exchange_other prompt answer formatted_response st prompts answers history key :
  key ∉ log_keys →
  record_exchange prompt answer formatted_response st prompts answers history !! key = st !! key.
Proof.
  intros Hkey. unfold record_exchange.
  rewrite !lookup_insert_ne; [done|intros <-; apply Hkey; unfold log_keys..];
    repeat constructor.
Qed.

(** X2.  On a session whose logs are lists the ask step is all or nothing:
    either it raises and the session state is what it was, or it returns and
    each log has grown by one exchange (the query, a displayed answer, the
    human turn and the ai turn with the clean answer text), every other key of
    the session state being untouched. *)
Theorem ask_all_or_nothing run_llm2 prompt st prompts answers history :
  logs st prompts answers history →
  (∃ e, ask run_llm2 prompt st = (st, Raise e)) ∨
  (∃ st' a d,
     ask run_llm2 prompt st = (st', Ok tt) ∧
     logs st' (prompts ++ [VStr prompt]) (answers ++ [VStr d])
       (history ++ [VTuple [VStr "human"; VStr prompt]; VTuple [VStr "ai"; VStr a]]) ∧
     ∀ key, key ∉ log_keys → st' !! key = st !! key).
Proof.
  intros Hlogs. rewrite (ask_exchange _ _ _ _ _ _ Hlogs).
  destruct (exchange _ _ _) as [[answer d]|e] eqn:Hex; [right|left; by exists e].
  destruct (exchange_inv _ _ _ _ _ Hex) as (r & s & c & _ & Hanswer & _).
  apply get_answer_text in Hanswer.
  eexists _, (py_str answer), d. split; [done|]. split.
  - rewrite <-Hanswer. by apply logs_record_exchange.
  - intros key Hkey. by apply record_exchange_other.
Qed.

Lemma ask_all_or_nothing_witness :
  (∃ e, ask (λ _ _, Raise (OtherError "ConnectionError")) "hi" initial_state
        = (initial_state, Raise e)) ∨
  (∃ st' a d,
     ask (λ _ _, Raise (OtherError "ConnectionError")) "hi" initial_state = (st', Ok tt) ∧
     logs st' ([] ++ [VStr "hi"]) ([] ++ [VStr d])
       ([] ++ [VTuple [VStr "human"; VStr "hi"]; VTuple [VStr "ai"; VStr a]]) ∧
     ∀ key, key ∉ log_keys → st' !! key = initial_state !! key).
Proof.
  apply (ask_all_or_nothing (λ _ _, Raise (OtherError "ConnectionError")) "hi"
           initial_state [] [] []).
  by vm_compute.
Defined.

(** X3.  The ask step consults the backend once, with the query and the Turn
    History as it stands: two backends that answer alike to that one call give
    the same step. *)
Theorem ask_backend_call run1 run2 prompt st prompts answers history :
  logs st prompts answers history →
  run1 prompt (VList history) = run2 prompt (VList history) →
  ask run1 prompt st = ask run2 prompt st.
Proof.
  intros Hlogs Hsame. rewrite !(ask_exchange _ _ _ _ _ _ Hlogs).
  unfold exchange. by rewrite Hsame.
Qed.

Lemma ask_backend_call_witness :
  ask (λ q h, if String.eqb q "hi" then Ok (VDict [("answer", VStr "hello")]) else Raise KeyError)
      "hi" initial_state
  = ask (λ _ _, Ok (VDict [("answer", VStr "hello")])) "hi" initial_state.
Proof.
  apply (ask_backend_call _ _ "hi" initial_state [] [] []).
  - by vm_compute.
  - reflexivity.
Defined.

(** X4.  An exception of the backend is not caught: the ask step raises the
    same exception and the session state is what it was. *)
Theorem ask_backend_raises run_llm2 prompt st prompts answers history e :
  logs st prompts answers history →
  run_llm2 prompt (VList history) = Raise e →
  ask run_llm2 prompt st = (st, Raise e).
Proof.
  intros Hlogs Hr. rewrite (ask_exchange _ _ _ _ _ _ Hlogs).
  unfold exchange. by rewrite Hr.
Qed.

Lemma ask_backend_raises_witness :
  ask (λ _ _, Raise (OtherError "RateLimitError")) "hi" initial_state
  = (initial_state, Raise (OtherError "RateLimitError")).
Proof.
  apply (ask_backend_raises _ "hi" initial_state [] [] []).
  - by vm_compute.
  - reflexivity.
Defined.

(** X5.  A backend response that is not a dictionary (None, text, a list, an
    object) fails the exchange: the ask step raises [AttributeError] or
    [TypeError] and appends nothing. *)
Theorem ask_response_not_dict run_llm2 prompt st prompts answers history response_dict :
  logs st prompts answers history →
  run_llm2 prompt (VList history) = Ok response_dict →
  (∀ entries, response_dict ≠ VDict entries) →
  ∃ e, ask run_llm2 prompt st = (st, Raise e) ∧ (e = AttributeError ∨ e = TypeError).
Proof.
  intros Hlogs Hr Hdict. rewrite (ask_exchange _ _ _ _ _ _ Hlogs).
  unfold exchange, get_answer. rewrite Hr. cbn [mbind result_bind].
  destruct response_dict as [| | | | | |entries|id cls attrs]; cbn;
    try (by eexists; split; [done|left]).
  - by destruct (Hdict entries).
  - destruct (assoc "get" attrs); eexists; (split; [done|]); [by right|by left].
Qed.

Lemma ask_response_not_dict_witness :
  ∃ e, ask (λ _ _, Ok VNone) "hi" initial_state = (initial_state, Raise e) ∧
       (e = AttributeError ∨ e = TypeError).
Proof.
  apply (ask_response_not_dict _ "hi" initial_state [] [] [] VNone).
  - by vm_compute.
  - reflexivity.
  - intros entries. discriminate.
Defined.

Lemma py_set_gen_unusable docs acc :
  Exists (λ doc, unusable doc = true) docs →
  ∃ e, py_set_gen doc_source docs acc = Raise e.
Proof.
  revert acc. induction docs as [|doc docs IH]; intros acc Hex.
  { by apply Exists_nil in Hex. }
  cbn [py_set_gen]. unfold unusable in Hex.
  destruct (doc_source doc) as [v|e] eqn:Hv; cbn [mbind result_bind]; [|by eexists].
  unfold py_set_add. destruct (py_hashable v) eqn:Hh; cbn [mbind result_bind]; [|by eexists].
  apply IH. apply Exists_cons in Hex as [Hdoc|Hrest]; [|done].
  by rewrite Hv, Hh in Hdoc.
Qed.

(** X6.  One unusable item anywhere in the context fails the whole exchange:
    if the context of a dictionary response can be iterated and some item has
    no readable source (no [metadata] attribute, a [metadata] without [get])
    or a source that cannot be hashed, the ask step raises and appends
    nothing, whatever the other items are. *)
Theorem ask_unusable_item run_llm2 prompt st prompts answers history entries docs doc :
  logs st prompts answers history →
  run_llm2 prompt (VList history) = Ok (VDict entries) →
  py_iter (default (VList []) (assoc "context" entries)) = Ok docs →
  doc ∈ docs →
  unusable doc = true →
  ∃ e, ask run_llm2 prompt st = (st, Raise e).
Proof.
  intros Hlogs Hr Hiter Hdoc Hbad. rewrite (ask_exchange _ _ _ _ _ _ Hlogs).
  unfold exchange. rewrite Hr. cbn [mbind result_bind].
  rewrite get_answer_dict. cbn [mbind result_bind].
  unfold get_sources, py_get. cbn [mbind result_bind]. rewrite Hiter. cbn [mbind result_bind].
  destruct (py_set_gen_unusable docs []) as [e He].
  { apply Exists_exists. by exists doc. }
  rewrite He. by exists e.
Qed.

Lemma ask_unusable_item_witness :
  ∃ e, ask (λ _ _, Ok (VDict [("answer", VStr "hello");
                              ("context", VList [cited 1 "docs/a"; VInt 7; cited 2 "docs/b"])]))
           "hi" initial_state
       = (initial_state, Raise e).
Proof.
  apply (ask_unusable_item _ "hi" initial_state [] [] []
           [("answer", VStr "hello");
            ("context", VList [cited 1 "docs/a"; VInt 7; cited 2 "docs/b"])]
           [cited 1 "docs/a"; VInt 7; cited 2 "docs/b"] (VInt 7)).
  - by vm_compute.
  - reflexivity.
  - reflexivity.
  - right. left.
  - reflexivity.
Defined.

(** * Beyond the claims: the source set and the citation block *)

Lemma py_set_gen_exact docs (acc : list string) :
  Forall (λ doc, document_ok doc = true) docs →
  NoDup acc →
  ∃ sources : list string,
    py_set_gen doc_source docs (VStr <$> acc) = Ok (VStr <$> sources) ∧
    NoDup sources ∧
    length sources ≤ length acc + length docs ∧
    ∀ s, s ∈ sources ↔ s ∈ acc ∨ ∃ doc, doc ∈ docs ∧ doc_source doc = Ok (VStr s).
Proof.
  intros Hdocs. revert acc.
  induction Hdocs as [|doc docs Hdoc _ IH]; intros acc Hacc.
  - exists acc. split_and!; [done..|simpl; lia|].
    intros s. split; [by left|]. intros [?|(doc & Hin & _)]; [done|].
    by apply elem_of_nil in Hin.
  - destruct (doc_source_ok _ Hdoc) as (s & Hs & _).
    cbn [py_set_gen]. rewrite Hs. cbn [mbind result_bind].
    rewrite py_set_add_str. cbn [mbind result_bind].
    set (acc' := if bool_decide (s ∈ acc) then acc else acc ++ [s]).
    assert (NoDup acc') as Hacc'.
    { unfold acc'. case_bool_decide; [done|].
      apply NoDup_app. split_and!; [done| |apply NoDup_singleton].
      by intros x Hx ->%list_elem_of_singleton. }
    assert (length acc' ≤ S (length acc)) as Hlen.
    { unfold acc'. case_bool_decide; [lia|]. rewrite length_app. simpl. lia. }
    assert (∀ x, x ∈ acc' ↔ x ∈ acc ∨ x = s) as Hmem.
    { intros x. unfold acc'. case_bool_decide.
      - split; [by left|]. by intros [?| ->].
      - by rewrite elem_of_app, list_elem_of_singleton. }
    destruct (IH acc' Hacc') as (sources & Hgen & Hnodup & Hle & Hiff).
    exists sources. split_and!; [done..|simpl; lia|].
    intros x. rewrite Hiff, Hmem. split.
    + intros [[?| ->]|(doc' & Hin & Hx)]; [by left| |].
      * right. exists doc. split; [by left|done].
      * right. exists doc'. split; [by right|done].
    + intros [?|(doc' & [->|Hin]%elem_of_cons & Hx)]; [by left; left| |].
      * rewrite Hs in Hx. injection Hx as ->. left. by right.
      * right. by exists doc'.
Qed.

(** X7.  For a context that is a list of documents, the source set holds
    exactly the identifiers of the items, "Unknown" standing for a missing
    one: each identifier once, however many items carry it, so never more
    identifiers than items. *)
Theorem get_sources_exact entries docs :
  assoc "context" entries = Some (VList docs) →
  Forall (λ doc, document_ok doc = true) docs →
  ∃ sources : list string,
    get_sources (VDict entries) = Ok (VStr <$> sources) ∧
    NoDup sources ∧
    length sources ≤ length docs ∧
    ∀ s, s ∈ sources ↔ ∃ doc, doc ∈ docs ∧ doc_source doc = Ok (VStr s).
Proof.
  intros Hctx Hdocs.
  destruct (py_set_gen_exact docs [] Hdocs NoDup_nil_2)
    as (sources & Hgen & Hnodup & Hle & Hiff).
  exists sources. split_and!; [|done..|].
  - unfold get_sources, py_get. rewrite Hctx. cbn [default mbind result_bind py_iter].
    apply Hgen.
  - intros s. rewrite Hiff. split; [|by right].
    intros [Hin|?]; [|done]. by apply elem_of_nil in Hin.
Qed.

Lemma get_sources_exact_witness :
  ∃ sources : list string,
    get_sources (chain_response 1 2 3) = Ok (VStr <$> sources) ∧
    NoDup sources ∧
    length sources ≤ 3 ∧
    ∀ s, s ∈ sources ↔
      ∃ doc, doc ∈ [cited 1 "docs/a"; cited 2 "docs/a"; cited 3 "docs/b"] ∧
             doc_source doc = Ok (VStr s).
Proof.
  apply (get_sources_exact
           [("answer", VStr "A chain links calls.");
            ("context", VList [cited 1 "docs/a"; cited 2 "docs/a"; cited 3 "docs/b"])]
           [cited 1 "docs/a"; cited 2 "docs/a"; cited 3 "docs/b"]).
  - reflexivity.
  - by repeat constructor.
Defined.

(** ** Identifiers that are not text *)

Lemma py_lt_raises : ∀ a b e, py_lt a b = Raise e → e = TypeError.
Proof.
  fix IH 1. intros a b e.
  destruct a as [| | | |l1|l1| |]; destruct b as [| | | |l2|l2| |]; cbn;
    try (by intros [= <-]); try done.
  - revert l2. induction l1 as [|x l1 IHl]; intros [|y l2]; try done.
    destruct (py_eq x y); [apply IHl|apply IH].
  - revert l2. induction l1 as [|x l1 IHl]; intros [|y l2]; try done.
    destruct (py_eq x y); [apply IHl|apply IH].
Qed.

Lemma py_lt_same_kind a b r :
  py_lt a b = Ok r → isinstance_str a = isinstance_str b.
Proof. by destruct a, b. Qed.

Lemma py_insert_raises x l e : py_insert x l = Raise e → e = TypeError.
Proof.
  induction l as [|y l IH]; cbn [py_insert]; [done|].
  destruct (py_lt y x) as [[]|e'] eqn:Hlt; cbn [mbind result_bind].
  - destruct (py_insert x l); cbn [mbind result_bind]; [done|].
    intros [= <-]. by apply IH.
  - done.
  - intros [= <-]. by eapply py_lt_raises.
Qed.

Lemma py_sorted_raises l e : py_sorted l = Raise e → e = TypeError.
Proof.
  induction l as [|x l IH]; cbn [py_sorted]; [done|].
  destruct (py_sorted l) as [r|e']; cbn [mbind result_bind].
  - apply py_insert_raises.
  - intros [= <-]. by apply IH.
Qed.

Lemma py_insert_perm x l r : py_insert x l = Ok r → r ≡ₚ x :: l.
Proof.
  revert r. induction l as [|y l IH]; intros r; cbn [py_insert].
  - by intros [= <-].
  - destruct (py_lt y x) as [[]|]; cbn [mbind result_bind]; [|by intros [= <-]|done].
    destruct (py_insert x l) as [r'|]; cbn [mbind result_bind]; [|done].
    intros [= <-]. rewrite (IH r' eq_refl). apply Permutation_swap.
Qed.

Lemma py_sorted_perm l r : py_sorted l = Ok r → r ≡ₚ l.
Proof.
  revert r. induction l as [|x l IH]; intros r; cbn [py_sorted].
  - by intros [= <-].
  - destruct (py_sorted l) as [r'|]; cbn [mbind result_bind]; [|done].
    intros Hins%py_insert_perm. by rewrite Hins, (IH r' eq_refl).
Qed.

(** A list that [sorted] accepts is all text or has no text at all. *)
Lemma py_sorted_one_kind l r :
  py_sorted l = Ok r →
  Forall (λ v, isinstance_str v = true) l ∨ Forall (λ v, isinstance_str v = false) l.
Proof.
  revert r. induction l as [|x l IH]; intros r; cbn [py_sorted]; [by left|].
  destruct (py_sorted l) as [r'|] eqn:Hsorted; cbn [mbind result_bind]; [|done].
  pose proof (py_sorted_perm _ _ Hsorted) as Hperm.
  destruct r' as [|y r'].
  - symmetry in Hperm. apply Permutation_nil_r in Hperm as ->. intros _.
    destruct (isinstance_str x) eqn:Hx; [left|right]; by repeat constructor.
  - cbn [py_insert].
    destruct (py_lt y x) as [b|] eqn:Hlt; cbn [mbind result_bind]; [|done].
    intros _. apply py_lt_same_kind in Hlt.
    assert (y ∈ l) as Hy by (rewrite <-Hperm; by left).
    destruct (IH _ eq_refl) as [Hall|Hall]; [left|right];
      (constructor; [|done]); rewrite Forall_forall in Hall;
      by rewrite <-Hlt, (Hall y Hy).
Qed.

(** X8.  A source set that mixes text with anything that is not text cannot
    be sorted: [create_sources_string] raises [TypeError].  (The ask step
    builds such a set when one item has a number as its source and another
    has text, or none and so "Unknown".) *)
Theorem create_sources_string_mixed source_urls s v :
  VStr s ∈ source_urls →
  v ∈ source_urls →
  isinstance_str v = false →
  create_sources_string source_urls = Raise TypeError.
Proof.
  intros Hs Hv Hkind. unfold create_sources_string.
  destruct source_urls as [|x l]; [by apply elem_of_nil in Hs|].
  destruct (py_sorted (x :: l)) as [r|e] eqn:Hsorted; cbn [mbind result_bind].
  - destruct (py_sorted_one_kind _ _ Hsorted) as [Hall|Hall];
      rewrite Forall_forall in Hall.
    + by rewrite (Hall v Hv) in Hkind.
    + by specialize (Hall _ Hs).
  - by rewrite (py_sorted_raises _ _ Hsorted).
Qed.

Lemma create_sources_string_mixed_witness :
  create_sources_string [VInt 12; VStr "Unknown"] = Raise TypeError.
Proof.
  apply (create_sources_string_mixed [VInt 12; VStr "Unknown"] "Unknown" (VInt 12)).
  - right. left.
  - left.
  - reflexivity.
Defined.

(** ** Reading a citation block back *)

Lemma one_line_app a b : one_line (a +:+ b) = one_line a && one_line b.
Proof.
  induction a as [|c a IH]; simpl; [done|].
  by rewrite IH, andb_assoc.
Qed.

Lemma one_line_pretty_N_go (x : N) s :
  one_line s = true → one_line (pretty_N_go x s) = true.
Proof.
  revert s. induction (N.lt_wf_0 x) as [x _ IH]; intros s Hs.
  destruct (decide (x = 0)%N) as [->|Hx]; [by rewrite pretty_N_go_0|].
  rewrite pretty_N_go_step by lia. apply IH.
  - apply N.div_lt; lia.
  - cbn [one_line]. rewrite Hs. unfold pretty_N_char. by repeat case_match.
Qed.

Lemma one_line_pretty_nat (n : nat) : one_line (pretty n) = true.
Proof.
  unfold pretty, pretty_nat, pretty, pretty_N.
  case_decide; [done|]. by apply one_line_pretty_N_go.
Qed.

Lemma append_nil (s : string) : "" +:+ s = s.
Proof. reflexivity. Qed.

Lemma append_cons c (a s : string) : String c a +:+ s = String c (a +:+ s).
Proof. reflexivity. Qed.

(** Two one-line texts, each followed by nothing or by a line feed and more,
    agree when the wholes agree. *)
Lemma one_line_split x y s t :
  one_line x = true → one_line y = true →
  (s = "" ∨ ∃ s', s = LF +:+ s') → (t = "" ∨ ∃ t', t = LF +:+ t') →
  x +:+ s = y +:+ t → x = y ∧ s = t.
Proof.
  revert y. induction x as [|c x IH]; intros [|d y] Hx Hy Hs Ht;
    rewrite ?append_nil, ?append_cons.
  - done.
  - intros ->. destruct Hs as [?|[s' Hs]]; [done|].
    unfold LF in Hs. rewrite append_cons in Hs. injection Hs as -> _.
    cbn [one_line] in Hy. by rewrite Ascii.eqb_refl in Hy.
  - intros <-. destruct Ht as [?|[t' Ht]]; [done|].
    unfold LF in Ht. rewrite append_cons in Ht. injection Ht as -> _.
    cbn [one_line] in Hx. by rewrite Ascii.eqb_refl in Hx.
  - intros [= -> Heq]. cbn [one_line] in Hx, Hy.
    apply andb_prop in Hx as [_ Hx]. apply andb_prop in Hy as [_ Hy].
    by destruct (IH y Hx Hy Hs Ht Heq) as [-> ->].
Qed.

Lemma concat_cons_tail (x : string) (ls : list string) :
  String.concat LF (x :: ls) = x +:+ (if ls is [] then "" else LF +:+ String.concat LF ls).
Proof.
  destruct ls; cbn [String.concat]; [|done].
  induction x as [|c x IH]; [done|]. by rewrite append_cons, <-IH.
Qed.

Lemma concat_lines_inj x (ls1 : list string) y (ls2 : list string) :
  Forall (λ line, one_line line = true) (x :: ls1) →
  Forall (λ line, one_line line = true) (y :: ls2) →
  String.concat LF (x :: ls1) = String.concat LF (y :: ls2) → x :: ls1 = y :: ls2.
Proof.
  revert x y ls2. induction ls1 as [|x' ls1 IH]; intros x y ls2 H1 H2 Heq;
    apply Forall_cons in H1 as [Hx H1]; apply Forall_cons in H2 as [Hy H2];
    rewrite !concat_cons_tail in Heq;
    (apply one_line_split in Heq as [-> Htail]; [|done..| |]);
    try (by left); try (right; by eexists);
    try (destruct ls2; [by left|right; by eexists]).
  - by destruct ls2.
  - destruct ls2 as [|y' ls2].
    { unfold LF in Htail. by rewrite append_cons in Htail. }
    apply (inj _) in Htail. rewrite <-!concat_cons_tail in Htail.
    f_equal. by apply IH.
Qed.

Lemma numbered_one_line ids :
  Forall (λ id, one_line id = true) ids →
  Forall (λ line, one_line line = true) (numbered ids).
Proof.
  intros Hids. apply Forall_lookup. intros i line Hline.
  unfold numbered in Hline. rewrite list_lookup_imap in Hline.
  destruct (ids !! i) as [id|] eqn:Hid; [|done]. injection Hline as <-.
  rewrite !one_line_app, one_line_pretty_nat.
  by rewrite (Forall_lookup_1 _ _ _ _ Hids Hid).
Qed.

Lemma numbered_inj ids1 ids2 : numbered ids1 = numbered ids2 → ids1 = ids2.
Proof.
  intros Heq. apply list_eq. intros i.
  apply (f_equal (λ l, l !! i)) in Heq. unfold numbered in Heq.
  rewrite !list_lookup_imap in Heq.
  destruct (ids1 !! i), (ids2 !! i); try done.
  injection Heq as Heq. by apply (inj _), (inj _) in Heq as ->.
Qed.

Lemma create_sources_string_lines (l : list string) :
  l ≠ [] →
  create_sources_string (VStr <$> l) =
  Ok (String.concat LF ("sources:" :: numbered (str_sorted l))).
Proof.
  intros Hl. rewrite create_sources_string_str. destruct l as [|x l]; [done|].
  rewrite concat_header; [done|].
  intros Hnil%(f_equal length).
  by rewrite numbered_length, (Permutation_length (str_sorted_perm _)) in Hnil.
Qed.

(** X9.  A citation block can be read back: when no identifier contains a
    line feed, two lists of identifiers with the same citation block have the
    same identifiers, each as many times. *)
Theorem create_sources_string_inj (l1 l2 : list string) :
  Forall (λ id, one_line id = true) l1 →
  Forall (λ id, one_line id = true) l2 →
  create_sources_string (VStr <$> l1) = create_sources_string (VStr <$> l2) →
  l1 ≡ₚ l2.
Proof.
  intros H1 H2 Heq.
  destruct (decide (l1 = [])) as [->|Hne1]; destruct (decide (l2 = [])) as [->|Hne2].
  - done.
  - rewrite (create_sources_string_lines l2 Hne2) in Heq.
    by rewrite concat_cons_tail, append_cons in Heq.
  - rewrite (create_sources_string_lines l1 Hne1) in Heq.
    by rewrite concat_cons_tail, append_cons in Heq.
  - rewrite (create_sources_string_lines l1 Hne1),
      (create_sources_string_lines l2 Hne2) in Heq.
    injection Heq as Heq.
    assert (Forall (λ id, one_line id = true) (str_sorted l1)) as H1'
      by (by rewrite str_sorted_perm).
    assert (Forall (λ id, one_line id = true) (str_sorted l2)) as H2'
      by (by rewrite str_sorted_perm).
    apply concat_lines_inj in Heq.
    + injection Heq as Heq%numbered_inj.
      by rewrite <-(str_sorted_perm l1), Heq, str_sorted_perm.
    + constructor; [done|by apply numbered_one_line].
    + constructor; [done|by apply numbered_one_line].
Qed.

Lemma create_sources_string_inj_witness :
  ["docs/b"; "docs/a"] ≡ₚ ["docs/a"; "docs/b"].
Proof.
  apply (create_sources_string_inj ["docs/b"; "docs/a"] ["docs/a"; "docs/b"]).
  - by repeat constructor.
  - by repeat constructor.
  - by vm_compute.
Defined.

(** * Beyond the claims: sessions *)

Lemma ask_extends run_llm2 prompt st prompts answers history :
  logs st prompts answers history →
  recorded prompts answers history →
  ∃ prompts' answers' history',
    logs (ask run_llm2 prompt st).1
      (prompts ++ prompts') (answers ++ answers') (history ++ history') ∧
    recorded (prompts ++ prompts') (answers ++ answers') (history ++ history').
Proof.
  intros Hlogs Hrec. rewrite (ask_exchange _ _ _ _ _ _ Hlogs).
  destruct (exchange _ _ _) as [[answer d]|e] eqn:Hex.
  - destruct (exchange_inv _ _ _ _ _ Hex) as (r & s & c & _ & Hanswer & _ & _ & ->).
    apply get_answer_text in Hanswer.
    eexists [_], [_], [_; _]. split; [by apply logs_record_exchange|].
    rewrite Hanswer. cbn [py_str]. by constructor.
  - exists [], [], []. by rewrite !app_nil_r.
Qed.

Lemma run_asks_extends calls st prompts answers history :
  logs st prompts answers history →
  recorded prompts answers history →
  ∃ prompts' answers' history',
    logs (run_asks calls st)
      (prompts ++ prompts') (answers ++ answers') (history ++ history') ∧
    recorded (prompts ++ prompts') (answers ++ answers') (history ++ history').
Proof.
  unfold run_asks. revert st prompts answers history.
  induction calls as [|[run_llm2 prompt] calls IH]; intros st prompts answers history Hlogs Hrec.
  - exists [], [], []. by rewrite !app_nil_r.
  - cbn [foldl].
    destruct (ask_extends run_llm2 prompt _ _ _ _ Hlogs Hrec) as (p1 & a1 & h1 & Hlogs1 & Hrec1).
    destruct (IH _ _ _ _ Hlogs1 Hrec1) as (p2 & a2 & h2 & Hlogs2 & Hrec2).
    exists (p1 ++ p2), (a1 ++ a2), (h1 ++ h2). by rewrite !(assoc_L (++)).
Qed.

Lemma recorded_lengths prompts answers history :
  recorded prompts answers history →
  length answers = length prompts ∧ length history = 2 * length prompts.
Proof.
  induction 1 as [|prompts answers history q a c _ [IHa IHh]]; [done|].
  rewrite !length_app. simpl. lia.
Qed.

Lemma recorded_lookup prompts answers history i entry :
  recorded prompts answers history →
  prompts !! i = Some entry →
  ∃ q a c,
    entry = VStr q ∧
    answers !! i = Some (VStr (a +:+ LF +:+ LF +:+ c)) ∧
    history !! (2 * i) = Some (VTuple [VStr "human"; VStr q]) ∧
    history !! (2 * i + 1) = Some (VTuple [VStr "ai"; VStr a]).
Proof.
  intros Hrec. revert i entry.
  induction Hrec as [|prompts answers history q a c Hrec IH]; intros i entry; [done|].
  destruct (recorded_lengths _ _ _ Hrec) as [Hlena Hlenh].
  destruct (decide (i < length prompts)) as [Hi|Hi].
  - rewrite lookup_app_l by done. intros Hentry.
    destruct (IH _ _ Hentry) as (q' & a' & c' & -> & Ha & Hh0 & Hh1).
    exists q', a', c'. split_and!; [done|..].
    + by rewrite lookup_app_l by lia.
    + by rewrite lookup_app_l by lia.
    + by rewrite lookup_app_l by lia.
  - rewrite lookup_app_r by lia. intros Hentry.
    destruct (i - length prompts) as [|n] eqn:Hn; [|done].
    injection Hentry as <-. assert (i = length prompts) as -> by lia.
    exists q, a, c. split_and!; [done|..].
    + rewrite lookup_app_r by lia. by replace (_ - _) with 0 by lia.
    + rewrite lookup_app_r by lia. by replace (_ - _) with 0 by lia.
    + rewrite lookup_app_r by lia. by replace (_ - _) with 1 by lia.
Qed.

(** X10.  The logs are append-only: whatever calls follow, and whether they
    return or raise, each log of the session as it was is a prefix of the log
    it becomes. *)
Theorem run_asks_append_only calls st prompts answers history :
  logs st prompts answers history →
  ∃ prompts' answers' history',
    logs (run_asks calls st)
      (prompts ++ prompts') (answers ++ answers') (history ++ history').
Proof.
  unfold run_asks. revert st prompts answers history.
  induction calls as [|[run_llm2 prompt] calls IH]; intros st prompts answers history Hlogs.
  - exists [], [], []. by rewrite !app_nil_r.
  - cbn [foldl].
    assert (∃ p1 a1 h1, logs (ask run_llm2 prompt st).1
              (prompts ++ p1) (answers ++ a1) (history ++ h1)) as (p1 & a1 & h1 & Hlogs1).
    { rewrite (ask_exchange _ _ _ _ _ _ Hlogs).
      destruct (exchange _ _ _) as [[answer d]|e].
      - eexists [_], [_], [_; _]. by apply logs_record_exchange.
      - exists [], [], []. by rewrite !app_nil_r. }
    destruct (IH _ _ _ _ Hlogs1) as (p2 & a2 & h2 & Hlogs2).
    exists (p1 ++ p2), (a1 ++ a2), (h1 ++ h2). by rewrite !(assoc_L (++)).
Qed.

Lemma run_asks_append_only_witness :
  ∃ prompts' answers' history',
    logs (run_asks [(λ _ _, Ok (VDict [("answer", VStr "two")]), "q2");
                    (λ _ _, Raise (OtherError "Timeout"), "q3")]
            (ask (λ _ _, Ok (VDict [("answer", VStr "one")])) "q1" initial_state).1)
      ([VStr "q1"] ++ prompts')
      ([VStr ("one" +:+ LF +:+ LF +:+ "")] ++ answers')
      ([VTuple [VStr "human"; VStr "q1"]; VTuple [VStr "ai"; VStr "one"]] ++ history').
Proof.
  apply (run_asks_append_only _ _ [VStr "q1"] [VStr ("one" +:+ LF +:+ LF +:+ "")]
           [VTuple [VStr "human"; VStr "q1"]; VTuple [VStr "ai"; VStr "one"]]).
  by vm_compute.
Defined.

(** X11.  After every sequence of ask calls from the initial state the three
    logs correspond position by position: entry [i] of the Prompt Log is the
    text of a query, entry [i] of the Answer Log is text made of a clean
    answer, a blank line and a citation block, and entries [2i] and [2i + 1]
    of the Turn History are the human turn with that query and the ai turn
    with that clean answer. *)
Theorem run_asks_correspondence (calls : list ((string → pyval → result pyval) * string)) :
  ∃ prompts answers history,
    logs (run_asks calls initial_state) prompts answers history ∧
    ∀ i entry, prompts !! i = Some entry →
      ∃ q a c,
        entry = VStr q ∧
        answers !! i = Some (VStr (a +:+ LF +:+ LF +:+ c)) ∧
        history !! (2 * i) = Some (VTuple [VStr "human"; VStr q]) ∧
        history !! (2 * i + 1) = Some (VTuple [VStr "ai"; VStr a]).
Proof.
  destruct (run_asks_extends calls initial_state [] [] [] logs_initial_state recorded_nil)
    as (prompts & answers & history & Hlogs & Hrec).
  exists prompts, answers, history. split; [done|].
  intros i entry. by apply recorded_lookup.
Qed.

(** X12.  On the session reached by any sequence of ask calls the display
    returns and shows no error: two messages for each exchange, the query
    under the user and the displayed answer, a string, under the assistant. *)
Theorem run_asks_display (calls : list ((string → pyval → result pyval) * string)) :
  ∃ prompts events,
    (run_asks calls initial_state) !! "user_prompt_history" = Some (VList prompts) ∧
    display_chat_history (run_asks calls initial_state)
      = (run_asks calls initial_state, Ok events) ∧
    length events = 2 * length prompts ∧
    ∀ event, event ∈ events → ∃ name text, event = chat_write name (VStr text).
Proof.
  destruct (run_asks_extends calls initial_state [] [] [] logs_initial_state recorded_nil)
    as (prompts & answers & history & Hlogs & Hrec).
  cbn [app] in Hlogs, Hrec. destruct Hlogs as (Hp & Ha & _).
  destruct (recorded_lengths _ _ _ Hrec) as [Hlen _].
  exists prompts, (concat (zip_with display_pair prompts answers)).
  split_and!; [done|by apply display_chat_history_lists|..].
  - rewrite display_length. lia.
  - intros event (j & Hj)%list_elem_of_lookup.
    assert (j < 2 * (length prompts `min` length answers)) as Hlt.
    { rewrite <-display_length. by eapply lookup_lt_Some. }
    assert (∃ i, i < length prompts ∧ (j = 2 * i ∨ j = 2 * i + 1)) as (i & Hi & Hij).
    { exists (j `div` 2). pose proof (Nat.div_mod_eq j 2) as Hdiv.
      pose proof (Nat.mod_upper_bound j 2). lia. }
    destruct (lookup_lt_is_Some_2 prompts i Hi) as [entry Hentry].
    destruct (recorded_lookup _ _ _ _ _ Hrec Hentry) as (q & a & c & -> & Hans & _).
    destruct (display_lookup _ _ _ _ _ Hentry Hans) as [Hquery Hanswer].
    destruct Hij as [-> | ->].
    + rewrite Hquery in Hj. injection Hj as <-. by eexists _, _.
    + rewrite Hanswer in Hj. injection Hj as <-. by eexists _, _.
Qed.

(** * Beyond the claims: one run of the page *)

Lemma main_page_unfold run_llm2 prompt st prompts answers history :
  logs st prompts answers history →
  main_page run_llm2 prompt st =
  if negb (String.eqb prompt "")
  then match ask run_llm2 prompt st with
       | (st', Ok _) => display_chat_history st'
       | (st', Raise e) => (st', Raise e)
       end
  else display_chat_history st.
Proof.
  intros Hlogs. unfold main_page.
  unfold mbind at 1, script_bind at 1.
  rewrite (session_state_init_logs _ _ _ _ Hlogs).
  unfold mbind at 1, script_bind at 1.
  destruct (negb (String.eqb prompt "")); [|done].
  by destruct (ask run_llm2 prompt st) as [st' [[]|e]].
Qed.

(** X13.  A run of the page with an empty input box only redraws: on a
    session whose logs are lists it leaves the session state as it is and
    shows the stored exchanges, and the backend is not called, so this holds
    for every backend. *)
Theorem main_page_redraws run_llm2 st prompts answers history :
  logs st prompts answers history →
  main_page run_llm2 "" st = (st, Ok (concat (zip_with display_pair prompts answers))).
Proof.
  intros Hlogs. rewrite (main_page_unfold _ _ _ _ _ _ Hlogs). cbn [String.eqb negb].
  destruct Hlogs as (Hp & Ha & _). by apply display_chat_history_lists.
Qed.

Lemma main_page_redraws_witness :
  main_page (λ _ _, Raise (OtherError "ConnectionError")) ""
    (ask (λ _ _, Ok (VDict [("answer", VStr "one")])) "q1" initial_state).1
  = ((ask (λ _ _, Ok (VDict [("answer", VStr "one")])) "q1" initial_state).1,
     Ok (concat (zip_with display_pair [VStr "q1"] [VStr ("one" +:+ LF +:+ LF +:+ "")]))).
Proof.
  apply (main_page_redraws _ _ [VStr "q1"] [VStr ("one" +:+ LF +:+ LF +:+ "")]
           [VTuple [VStr "human"; VStr "q1"]; VTuple [VStr "ai"; VStr "one"]]).
  by vm_compute.
Defined.

(** X14.  A run of the page with a query whose exchange returns shows what
    it showed before and, after it, the new exchange: the query under the
    user and the displayed answer (clean answer, blank line, citation block)
    under the assistant. *)
Theorem main_page_shows_exchange run_llm2 prompt st prompts answers history
    response_dict answer sources citations :
  logs st prompts answers history →
  length prompts = length answers →
  prompt ≠ "" →
  run_llm2 prompt (VList history) = Ok response_dict →
  get_answer response_dict = Ok answer →
  get_sources response_dict = Ok sources →
  create_sources_string sources = Ok citations →
  ∃ st',
    main_page run_llm2 prompt st =
      (st', Ok (concat (zip_with display_pair prompts answers) ++
                [chat_write "user" (VStr prompt);
                 chat_write "assistant" (VStr (py_str answer +:+ LF +:+ LF +:+ citations))])) ∧
    logs st' (prompts ++ [VStr prompt])
      (answers ++ [VStr (py_str answer +:+ LF +:+ LF +:+ citations)])
      (history ++ [VTuple [VStr "human"; VStr prompt]; VTuple [VStr "ai"; answer]]).
Proof.
  intros Hlogs Hlen Hprompt Hr Ha Hs Hc.
  destruct (ask_returns _ _ _ _ _ _ _ _ Hlogs (exchange_returns _ _ _ _ _ _ _ Hr Ha Hs Hc))
    as (st' & Hask & Hlogs').
  exists st'. split; [|done].
  rewrite (main_page_unfold _ _ _ _ _ _ Hlogs), Hask.
  replace (negb (String.eqb prompt "")) with true
    by (symmetry; apply negb_true_iff; by apply String.eqb_neq).
  destruct Hlogs' as (Hp' & Ha' & _).
  rewrite (display_chat_history_lists _ _ _ Hp' Ha').
  by rewrite zip_with_app, concat_app by done.
Qed.

Lemma main_page_shows_exchange_witness :
  ∃ st',
    main_page (λ _ _, Ok (VDict [("answer", VInt 42)])) "hi" initial_state =
      (st', Ok (concat (zip_with display_pair [] []) ++
                [chat_write "user" (VStr "hi");
                 chat_write "assistant" (VStr (py_str (VStr "42") +:+ LF +:+ LF +:+ ""))])) ∧
    logs st' ([] ++ [VStr "hi"])
      ([] ++ [VStr (py_str (VStr "42") +:+ LF +:+ LF +:+ "")])
      ([] ++ [VTuple [VStr "human"; VStr "hi"]; VTuple [VStr "ai"; VStr "42"]]).
Proof.
  apply (main_page_shows_exchange (λ _ _, Ok (VDict [("answer", VInt 42)])) "hi"
           initial_state [] [] [] (VDict [("answer", VInt 42)]) (VStr "42") [] "").
  - by vm_compute.
  - reflexivity.
  - discriminate.
  - reflexivity.
  - reflexivity.
  - reflexivity.
  - reflexivity.
Defined.

(** X15.  A run of the page whose exchange raises shows nothing: the
    exception ends the run before the display, the stored exchanges are not
    drawn, and the session state is what it was. *)
Theorem main_page_exchange_raises run_llm2 prompt st st' prompts answers history e :
  logs st prompts answers history →
  prompt ≠ "" →
  ask run_llm2 prompt st = (st', Raise e) →
  main_page run_llm2 prompt st = (st, Raise e).
Proof.
  intros Hlogs Hprompt Hask.
  rewrite (main_page_unfold _ _ _ _ _ _ Hlogs).
  replace (negb (String.eqb prompt "")) with true
    by (symmetry; apply negb_true_iff; by apply String.eqb_neq).
  rewrite (ask_exchange _ _ _ _ _ _ Hlogs) in Hask |- *.
  destruct (exchange _ _ _) as [[answer d]|e']; [done|].
  by injection Hask as _ ->.
Qed.

Lemma main_page_exchange_raises_witness :
  main_page (λ _ _, Ok (VDict [("answer", VStr "hello"); ("context", VNone)])) "hi"
    initial_state
  = (initial_state, Raise TypeError).
Proof.
  apply (main_page_exchange_raises _ "hi" initial_state initial_state [] [] []).
  - by vm_compute.
  - discriminate.
  - by vm_compute.
Defined.

(** X16.  After a reset the next exchange is the first one: from whatever
    session state the reset started, the backend is called with an empty Turn
    History, and when the exchange returns the logs hold that exchange and
    nothing older. *)
Theorem ask_after_reset run_llm2 prompt (st : gmap string pyval)
    response_dict answer sources citations :
  run_llm2 prompt (VList []) = Ok response_dict →
  get_answer response_dict = Ok answer →
  get_sources response_dict = Ok sources →
  create_sources_string sources = Ok citations →
  ∃ st',
    (clear_chat_history;; ask run_llm2 prompt) st = (st', Ok tt) ∧
    logs st' [VStr prompt] [VStr (py_str answer +:+ LF +:+ LF +:+ citations)]
      [VTuple [VStr "human"; VStr prompt]; VTuple [VStr "ai"; answer]].
Proof.
  intros Hr Ha Hs Hc.
  destruct (ask_returns _ _ _ _ _ _ _ _ logs_initial_state
              (exchange_returns _ _ _ _ _ _ _ Hr Ha Hs Hc)) as (st' & Hask & Hlogs').
  exists st'. split; [|done].
  unfold mbind, script_bind.
  change (clear_chat_history st) with (initial_state, @Ok unit tt).
  exact Hask.
Qed.

Lemma ask_after_reset_witness :
  ∃ st',
    (clear_chat_history;; ask (λ _ _, Ok (VDict [("answer", VStr "two")])) "q2")
      (ask (λ _ _, Ok (VDict [("answer", VStr "one")])) "q1" initial_state).1
    = (st', Ok tt) ∧
    logs st' [VStr "q2"] [VStr (py_str (VStr "two") +:+ LF +:+ LF +:+ "")]
      [VTuple [VStr "human"; VStr "q2"]; VTuple [VStr "ai"; VStr "two"]].
Proof.
  apply (ask_after_reset (λ _ _, Ok (VDict [("answer", VStr "two")])) "q2" _
           (VDict [("answer", VStr "two")]) (VStr "two") [] "").
  - reflexivity.
  - reflexivity.
  - reflexivity.
  - reflexivity.
Defined.

(** X17.  The display only reads: for every session state whatsoever it
    leaves the state as it is, and when it raises, the exception is
    [KeyError] (a log is missing) or [TypeError] (a log cannot be
    iterated). *)
Theorem display_reads_only (st : gmap string pyval) :
  ∃ outcome,
    display_chat_history st = (st, outcome) ∧
    ∀ e, outcome = Raise e → e = KeyError ∨ e = TypeError.
Proof.
  assert (∀ v e, py_iter v = Raise e → e = TypeError) as Hiter.
  { intros [] e'; cbn; by intros [= <-]. }
  unfold display_chat_history, mbind, script_bind, ss_getitem, lift, mret, script_ret.
  destruct (st !! "chat_answers_history") as [answers|] eqn:Ha;
    [|eexists; split; [done|]; intros e [= <-]; by left].
  destruct (py_truthy answers); [|eexists; split; [done|]; by intros e [=]].
  destruct (st !! "user_prompt_history") as [prompts|];
    [|eexists; split; [done|]; intros e [= <-]; by left].
  rewrite Ha.
  destruct (py_iter prompts) as [ps|e1] eqn:H1;
    [|eexists; split; [done|]; intros e [= <-]; right; by eapply Hiter].
  destruct (py_iter answers) as [ans|e2] eqn:H2;
    [|eexists; split; [done|]; intros e [= <-]; right; by eapply Hiter].
  eexists. split; [done|]. by intros e [=].
Qed.

(** * Beyond the claims: the profile picture *)

Section sidebar_facts.
Variable Image : Type.
Variable Image_new : string → Z * Z → string → Image.
Variable Image_open : string → outcome Image.
Variable py_hash : pyval → Z.
Variable requests_get : string → outcome http_response.

(** X18.  [get_profile_picture] never lets a [RequestException] out, whatever
    the network and the imaging library do. *)
Theorem get_profile_picture_absorbs email cls :
  get_profile_picture Image Image_new Image_open py_hash requests_get email ≠ Raises (RequestException cls).
Proof.
  unfold get_profile_picture.
  destruct (gravatar_url_of py_hash email) as [url|[]]; cbn [mbind outcome_bind]; [|done..].
  destruct (requests_get url) as [response|[]]; cbn [mbind outcome_bind]; [|done..].
  destruct (raise_for_status response) as [[]|[]]; cbn [mbind outcome_bind]; [|done..].
  by destruct (Image_open (content response)) as [img|[]].
Qed.

(** X19.  When the request for the Gravatar picture fails with a
    [RequestException], or is answered with a client or server error status
    (400 to 599), the result is the placeholder: a grey RGB image of 150 by
    150. *)
Theorem get_profile_picture_placeholder email url :
  gravatar_url_of py_hash email = Returns url →
  ((∃ cls, requests_get url = Raises (RequestException cls)) ∨
   (∃ response, requests_get url = Returns response ∧
                (400 ≤ status_code response < 600)%Z)) →
  get_profile_picture Image Image_new Image_open py_hash requests_get email
  = Returns (Image_new "RGB" (150, 150)%Z "grey").
Proof.
  intros Hurl Hfail. unfold get_profile_picture. rewrite Hurl. cbn [mbind outcome_bind].
  destruct Hfail as [[cls Hget]|(response & Hget & Hstatus)]; rewrite Hget;
    cbn [mbind outcome_bind]; [done|].
  unfold raise_for_status.
  replace ((400 <=? status_code response)%Z && (status_code response <? 600)%Z) with true;
    [done|].
  symmetry. apply andb_true_iff. split; [apply Z.leb_le|apply Z.ltb_lt]; lia.
Qed.

(** X20.  Only a [RequestException] is absorbed.  When the request is
    answered with a status outside 400 to 599, the result is what the imaging
    library makes of the body: the decoded picture, or the exception it
    raises when that is of another class; and an exception of another class
    raised by the request itself is not caught either. *)
Theorem get_profile_picture_passes email url :
  gravatar_url_of py_hash email = Returns url →
  (∀ response, requests_get url = Returns response →
     ¬ (400 ≤ status_code response < 600)%Z →
     (∀ img, Image_open (content response) = Returns img →
        get_profile_picture Image Image_new Image_open py_hash requests_get email
        = Returns img) ∧
     (∀ e, Image_open (content response) = Raises (OtherException e) →
        get_profile_picture Image Image_new Image_open py_hash requests_get email
        = Raises (OtherException e))) ∧
  (∀ e, requests_get url = Raises (OtherException e) →
     get_profile_picture Image Image_new Image_open py_hash requests_get email
     = Raises (OtherException e)).
Proof.
  intros Hurl. unfold get_profile_picture. rewrite Hurl. cbn [mbind outcome_bind]. split.
  - intros response Hget Hstatus. rewrite Hget. cbn [mbind outcome_bind].
    unfold raise_for_status.
    replace ((400 <=? status_code response)%Z && (status_code response <? 600)%Z) with false.
    + cbn [mbind outcome_bind]. split; intros ? ->; done.
    + symmetry. apply andb_false_iff.
      destruct (decide (400 ≤ status_code response)%Z);
        [right; apply Z.ltb_ge|left; apply Z.leb_gt]; lia.
  - intros e Hget. by rewrite Hget.
Qed.
End sidebar_facts.

Lemma get_profile_picture_placeholder_witness :
  get_profile_picture string (λ mode size color, color) (λ body, Returns body)
    (λ _, (-7)%Z) (λ _, Returns {| status_code := 404; content := "Not Found" |})
    (VStr "thomaspatole19@gmail.com")
  = Returns "grey".
Proof.
  apply (get_profile_picture_placeholder string (λ mode size color, color)
           (λ body, Returns body) (λ _, (-7)%Z)
           (λ _, Returns {| status_code := 404; content := "Not Found" |})
           (VStr "thomaspatole19@gmail.com")
           "https://www.gravatar.com/avatar/-7?d=identicon&s=150").
  - reflexivity.
  - right. eexists. split; [reflexivity|]. simpl. lia.
Defined.

Lemma get_profile_picture_passes_witness :
  get_profile_picture string (λ mode size color, color)
    (λ body, Raises (OtherException (OtherError "UnidentifiedImageError")))
    (λ _, 7%Z) (λ _, Returns {| status_code := 200; content := "<html>" |})
    (VStr "thomaspatole19@gmail.com")
  = Raises (OtherException (OtherError "UnidentifiedImageError")).
Proof.
  destruct (get_profile_picture_passes string (λ mode size color, color)
              (λ body, Raises (OtherException (OtherError "UnidentifiedImageError")))
              (λ _, 7%Z) (λ _, Returns {| status_code := 200; content := "<html>" |})
              (VStr "thomaspatole19@gmail.com")
              "https://www.gravatar.com/avatar/7?d=identicon&s=150")
    as [Hbody _].
  - reflexivity.
  - destruct (Hbody {| status_code := 200; content := "<html>" |}) as [_ Hraises].
    + reflexivity.
    + simpl. lia.
    + by apply Hraises.
Defined.
